(** * gomux: the response dispatch adapter, the route table builder and the
    server life cycle of [gomux.go], as a shallow embedding.

    The packages gomux calls (gorilla/mux, hunterdishner/errors,
    encoding/json, net/http, phayes/freeport, rs/cors) are not part of the
    repository.  What gomux asks of them is recorded as it is asked: the calls
    made on the [http.ResponseWriter], the registrations made on the router,
    the entries handed to the process-wide logger.  What they answer (whether
    a write fails, whether a registration is refused, how a string is quoted
    in JSON) is a field of the class [World], over which every definition and
    every property is stated; [Demo] gives worlds to run them in. *)

From Stdlib Require Import ZArith String Ascii List Lia.
From stdpp Require Import base option list gmap strings pretty.

Open Scope Z_scope.
Open Scope string_scope.

(** ** github.com/hunterdishner/errors, as far as gomux.go uses it *)

(** A [*errors.Error] is a pointer: the adapter assigns to [err.Code] through
    it (gomux.go:236), so the objects live in a store and values carry their
    address.  An address outside the store's domain is the nil pointer. *)
Definition loc := positive.

(** The dynamic type test of gomux.go:233 has two outcomes: the error is a
    [*errors.Error], or it is anything else, known by its [Error()] text. *)
Inductive GoError :=
| ErrPtr (l : loc)
| ErrOpaque (msg : string).

Module errors.

(** The failure categories gomux.go names, and the zero value [Other]. *)
Inductive Kind := Other | Invalid | HTTP | Encoding | IO.

(** The fields of the JSON form shown in the README:
    code, op, kind, err, stack. *)
Record Error := mkError {
  Code : Z;
  Op : string;
  EKind : Kind;
  Err : option GoError;
  Stack : list string
}.

(** Modelled from the spec: the constant [errors.CodeServerError], declared
    in the errors package; the spec gives it as 500, and gomux.go:241 passes
    it to [WriteHeader]. *)
Definition CodeServerError : Z := 500.

(** [errors.CodeBadRequest], 400 in the README's example. *)
Definition CodeBadRequest : Z := 400.

(** [errors.E] for the argument shapes of gomux.go: a code, a kind and the
    wrapped error; [stk] is the call stack captured at the call site. *)
Definition E (c : Z) (k : Kind) (cause : GoError) (stk : list string) : Error :=
  mkError c EmptyString k (Some cause) stk.

Definition setCode (c : Z) (e : Error) : Error :=
  mkError c (Op e) (EKind e) (Err e) (Stack e).

End errors.

Abbreviation Error := errors.Error.
Abbreviation Heap := (gmap loc errors.Error).

(** ** encoding/json *)

#[warnings="-register-all"]
Inductive JSON :=
| JNull
| JBool (b : bool)
| JNum (z : Z)
| JStr (s : string)
| JArr (l : list JSON)
| JObj (kvs : list (string * JSON)).

Definition newline : string := String "010"%char EmptyString.

Fixpoint joinWith (sep : string) (l : list string) : string :=
  match l with
  | [] => EmptyString
  | [x] => x
  | x :: rest => x +:+ sep +:+ joinWith sep rest
  end.

(** First value bound to [k] in a JSON object. *)
Fixpoint field (k : string) (kvs : list (string * JSON)) : option JSON :=
  match kvs with
  | [] => None
  | (k', v) :: rest => if String.eqb k k' then Some v else field k rest
  end.

Definition jsonField (k : string) (j : JSON) : option JSON :=
  match j with
  | JObj kvs => field k kvs
  | _ => None
  end.

(** A body has the shape of an error when it is an object with a code. *)
Definition errorShaped (j : JSON) : bool :=
  match jsonField "code" j with
  | Some _ => true
  | None => false
  end.

(** The [interface{}] a business handler returns, seen through what
    [json.Encoder.Encode] does with it. *)
Inductive iface :=
| INil                          (* the untyped nil *)
| IErrorPtr (l : loc)           (* a *errors.Error *)
| IValue (j : JSON)             (* a value whose JSON form is j *)
| IUnsupported (why : string).  (* a value Encode refuses: a chan, a func *)

(** ** The state one request is served in *)

(** Calls made on the [http.ResponseWriter], in order. *)
Inductive WCall :=
| SetHeader (k v : string)
| WriteHeader (code : Z)
| WriteBody (b : string).

(** What [log.Printf] was given: an error under the verb [%+v], or a line. *)
Inductive LogEntry :=
| LogError (e : Error)
| LogLine (s : string).

Record State := mkState {
  heap : Heap;
  calls : list WCall;
  logs : list LogEntry
}.

(** A Go function either returns or panics. *)
Inductive Outcome (A : Type) :=
| Done (a : A)
| Panicked.
Arguments Done {A} a.
Arguments Panicked {A}.

Definition M (A : Type) : Type := State -> Outcome A * State.

Definition ret {A} (a : A) : M A := fun st => (Done a, st).

Definition bind {A B} (m : M A) (k : A -> M B) : M B :=
  fun st =>
    match m st with
    | (Done a, st') => k a st'
    | (Panicked, st') => (Panicked, st')
    end.

Notation "x <-- m ;; k" := (bind m (fun x => k))
  (at level 100, m at next level, right associativity).
Notation "m ;;; k" := (bind m (fun _ => k))
  (at level 100, right associativity).

(** net/http's response writer checks the code given to [WriteHeader]: one
    outside 100..999 makes the call panic.  The check is made only while the
    header is not written yet; once it is, a further [WriteHeader] is
    superfluous and returns.  The header is written by a body write and by a
    [WriteHeader] with a valid code, the informational ones (1xx, 101 apart)
    excepted. *)
Definition validStatus (code : Z) : bool :=
  (100 <=? code)%Z && (code <=? 999)%Z.

Definition informational (code : Z) : bool :=
  (100 <=? code)%Z && (code <=? 199)%Z && negb (code =? 101)%Z.

Definition writesHeader (c : WCall) : bool :=
  match c with
  | SetHeader _ _ => false
  | WriteHeader code => validStatus code && negb (informational code)
  | WriteBody _ => true
  end.

Definition wroteHeader (cs : list WCall) : bool := existsb writesHeader cs.

(** Whether the writer takes a call, after the calls [cs]. *)
Definition accepts (cs : list WCall) (c : WCall) : bool :=
  match c with
  | WriteHeader code => validStatus code || wroteHeader cs
  | _ => true
  end.

(** A call on the writer: recorded when the writer takes it, a panic in the
    state it was made in otherwise. *)
Definition call (c : WCall) : M unit :=
  fun st =>
    if accepts (calls st) c
    then (Done tt, mkState (heap st) (calls st ++ [c])%list (logs st))
    else (Panicked, st).

Definition logPrintf (e : LogEntry) : M unit :=
  fun st => (Done tt, mkState (heap st) (calls st) (logs st ++ [e])%list).

(** Reading a field through a [*errors.Error]; the nil pointer panics. *)
Definition deref (l : loc) : M Error :=
  fun st =>
    match heap st !! l with
    | Some e => (Done e, st)
    | None => (Panicked, st)
    end.

Definition store (l : loc) (e : Error) : M unit :=
  fun st => (Done tt, mkState (<[l := e]> (heap st)) (calls st) (logs st)).

(** A new [*errors.Error]: an address the store does not hold yet. *)
Definition alloc (e : Error) : M loc :=
  fun st =>
    let l := fresh (dom (heap st)) in
    (Done l, mkState (<[l := e]> (heap st)) (calls st) (logs st)).

(** ** crypto/tls: the policy object gomux hands over *)
Module tls.
Inductive Version := VersionTLS10 | VersionTLS11 | VersionTLS12 | VersionTLS13.
Inductive CurveID := CurveP256 | CurveP384 | CurveP521 | X25519.
Inductive CipherSuite :=
| TLS_ECDHE_RSA_WITH_AES_256_GCM_SHA384
| TLS_ECDHE_RSA_WITH_AES_256_CBC_SHA
| TLS_RSA_WITH_AES_256_GCM_SHA384
| TLS_RSA_WITH_AES_256_CBC_SHA
| OtherSuite (id : Z).

Record Config := mkConfig {
  MinVersion : Version;
  CurvePreferences : list CurveID;
  PreferServerCipherSuites : bool;
  CipherSuites : list CipherSuite
}.
End tls.

(** ** rs/cors: a policy is known by the options it was built from *)
Module cors.
Record Options := mkOptions {
  AllowedOrigins : list string;
  AllowCredentials : bool;
  AllowedMethods : list string;
  AllowedHeaders : list string
}.
Definition Cors : Type := Options.
Definition New (o : Options) : Cors := o.
End cors.

(** ** net/http *)
Module http.
Definition StatusOK : Z := 200.
Definition StatusUnprocessableEntity : Z := 422.
Definition StatusInternalServerError : Z := 500.

Record Request := mkRequest {
  Method : string;
  URL : string;
  Body : string
}.

(** [http.HandlerFunc]: the writer is the one of the state. *)
Definition HandlerFunc : Type := Request -> M unit.

(** [http.Server], with the fields gomux.go:212-217 sets. *)
Record Server (H : Type) := mkServer {
  Addr : string;
  Handler : H;
  TLSConfig : tls.Config;
  TLSNextProto : list string
}.
Arguments mkServer {H}.
Arguments Addr {H}.
Arguments Handler {H}.
Arguments TLSConfig {H}.
Arguments TLSNextProto {H}.
End http.

(** [type ServiceHandler func(io.Writer, *http.Request) (interface{}, error)] *)
Definition ServiceHandler : Type := http.Request -> M (iface * option GoError).

(** ** gorilla/mux: the router, known by the registrations asked of it *)
Module mux.
(** One [Methods(m).Path(p).HandlerFunc(f)] chain and what [GetError]
    answered for it. *)
Record Registration := mkRegistration {
  regMethod : string;
  regPath : string;
  regHandler : option http.HandlerFunc;
  regErr : option string
}.

(** [NewRouter().StrictSlash(b).PathPrefix(p).Subrouter()]. *)
Record Router := mkRouter {
  strictSlash : bool;
  pathPrefix : string;
  registered : list Registration
}.
End mux.

(** ** The data model of gomux.go *)

Inductive Context := Background | TODO.

(** gomux.go:20-28. *)
Record Server := mkServer {
  name : string;
  ctx : Context;
  mux : mux.Router;
  tls : bool;
  port : Z;
  tlsconfig : tls.Config;
  cors : cors.Cors
}.

(** gomux.go:32: an option mutates the server it is applied to. *)
Definition Option : Type := Server -> Server.

(** gomux.go:90-95: either handler may be nil. *)
Record Route := mkRoute {
  Method : string;
  Path : string;
  Handler : option ServiceHandler;
  HandlerFunc : option http.HandlerFunc
}.

(** What [Serve] asks of the operating system, in order. *)
Inductive SysCall :=
| SysGetFreePort
| SysListenAndServe (srv : http.Server (cors.Cors * mux.Router))
| SysListenAndServeTLS (srv : http.Server (cors.Cors * mux.Router))
                       (certFile keyFile : string).

(** The error [Serve] returns: the structured one it builds itself, given by
    value, or the listener's. *)
Inductive ServeError :=
| Structured (e : Error)
| FromListener (msg : string).

Record Served := mkServed {
  server : Server;
  sys : list SysCall;
  printed : list LogEntry;
  returned : ServeError
}.

(** ** What the outside world answers *)
Class World := {
  (** how encoding/json writes a string literal (quotes and escapes) *)
  quote : string -> string;
  (** the number the errors package gives a kind in JSON (1 for [Invalid] in
      the README), and its JSON form of the wrapped error *)
  kindNum : errors.Kind -> Z;
  causeJSON : Heap -> option GoError -> JSON;
  (** the call stack [errors.E] captures when called at a line of gomux.go *)
  stackAt : nat -> list string;
  (** what [w.Write] answers, given the calls made so far and the bytes:
      [Some msg] is a transport failure *)
  transport : list WCall -> string -> option string;
  (** what [GetError] answers for a method and a path on a router *)
  muxError : mux.Router -> string -> string -> option string;
  (** what [freeport.GetFreePort] answers: a port or a failure *)
  GetFreePort : Z + string;
  (** the error a listener ends with *)
  listenError : http.Server (cors.Cors * mux.Router) -> string
}.

(** ** strings.TrimPrefix *)
Fixpoint cutPrefix (prefix s : string) : option string :=
  match prefix with
  | EmptyString => Some s
  | String a prefix' =>
      match s with
      | EmptyString => None
      | String b s' => if Ascii.eqb a b then cutPrefix prefix' s' else None
      end
  end.

Definition TrimPrefix (s prefix : string) : string :=
  match cutPrefix prefix s with
  | Some rest => rest
  | None => s
  end.

Section Gomux.
Context {W : World}.

(** ** encoding/json, continued *)

Fixpoint render (j : JSON) : string :=
  match j with
  | JNull => "null"
  | JBool true => "true"
  | JBool false => "false"
  | JNum z => pretty z
  | JStr s => quote s
  | JArr l => "[" +:+ joinWith "," (map render l) +:+ "]"
  | JObj kvs =>
      "{" +:+ joinWith ","
                (map (fun kv => quote (fst kv) +:+ ":" +:+ render (snd kv)) kvs)
          +:+ "}"
  end.

(** The JSON form of an [errors.Error], fields as in the README. *)
Definition marshalError (h : Heap) (e : Error) : JSON :=
  JObj [ ("code", JNum (errors.Code e));
         ("op", JStr (errors.Op e));
         ("kind", JNum (kindNum (errors.EKind e)));
         ("err", causeJSON h (errors.Err e));
         ("stack", JArr (map JStr (errors.Stack e))) ].

(** The JSON value of [data], or the encoder's refusal.  A nil pointer
    encodes as null. *)
Definition toJSON (h : Heap) (data : iface) : JSON + string :=
  match data with
  | INil => inl JNull
  | IErrorPtr l =>
      match h !! l with
      | Some e => inl (marshalError h e)
      | None => inl JNull
      end
  | IValue j => inl j
  | IUnsupported why => inr why
  end.

(** [json.NewEncoder(&buf).Encode(data)]: the JSON text and a newline. *)
Definition Encode (h : Heap) (data : iface) : string + string :=
  match toJSON h data with
  | inl j => inl (render j +:+ newline)
  | inr why => inr why
  end.

(** ** The dispatch adapter *)

(** gomux.go:254-268. *)
Definition writeContent (r : http.Request) (data : iface) : M (option GoError) :=
  fun st =>
    match Encode (heap st) data with
    | inr why =>
        (call (WriteHeader http.StatusInternalServerError) ;;;
         l <-- alloc (errors.E errors.CodeServerError errors.Encoding
                        (ErrOpaque why) (stackAt 259)) ;;
         ret (Some (ErrPtr l))) st
    | inl buf =>
        match transport (calls st) buf with
        | Some why =>
            (call (WriteBody buf) ;;;
             call (WriteHeader http.StatusInternalServerError) ;;;
             l <-- alloc (errors.E errors.CodeServerError errors.IO
                            (ErrOpaque why) (stackAt 264)) ;;
             ret (Some (ErrPtr l))) st
        | None =>
            (call (WriteBody buf) ;;; ret None) st
        end
    end.

(** The classification of gomux.go:232-246: the status written and the value
    that becomes [data]. *)
Definition classify (data : iface) (err : option GoError) : M iface :=
  match err with
  | Some (ErrPtr l) =>
      e <-- deref l ;;
      (if (errors.Code e =? 0)%Z
       then store l (errors.setCode http.StatusInternalServerError e)
       else ret tt) ;;;
      e' <-- deref l ;;
      call (WriteHeader (errors.Code e')) ;;;
      ret (IErrorPtr l)
  | Some (ErrOpaque msg) =>
      call (WriteHeader errors.CodeServerError) ;;;
      l <-- alloc (errors.E errors.CodeServerError errors.Invalid
                     (ErrOpaque msg) (stackAt 242)) ;;
      ret (IErrorPtr l)
  | None =>
      call (WriteHeader http.StatusOK) ;;;
      ret data
  end.

(** gomux.go:248-250: the body is written, and a failure to write it is
    logged. *)
Definition respond (r : http.Request) (data : iface) : M unit :=
  werr <-- writeContent r data ;;
  match werr with
  | Some err =>
      logPrintf (LogError (errors.E http.StatusUnprocessableEntity
                             errors.Invalid err (stackAt 249)))
  | None => ret tt
  end.

(** gomux.go:227-252. *)
Definition responseHandler (fn : ServiceHandler) : http.HandlerFunc :=
  fun r =>
    call (SetHeader "Content-Type" "application/json") ;;;
    res <-- fn r ;;
    data <-- classify (fst res) (snd res) ;;
    respond r data.

(** ** Server configuration *)

Definition setTls (b : bool) (s : Server) : Server :=
  mkServer (name s) (ctx s) (mux s) b (port s) (tlsconfig s) (cors s).
Definition setTlsconfig (c : tls.Config) (s : Server) : Server :=
  mkServer (name s) (ctx s) (mux s) (tls s) (port s) c (cors s).
Definition setCors (c : cors.Cors) (s : Server) : Server :=
  mkServer (name s) (ctx s) (mux s) (tls s) (port s) (tlsconfig s) c.
Definition setPort (p : Z) (s : Server) : Server :=
  mkServer (name s) (ctx s) (mux s) (tls s) p (tlsconfig s) (cors s).
Definition setMux (m : mux.Router) (s : Server) : Server :=
  mkServer (name s) (ctx s) m (tls s) (port s) (tlsconfig s) (cors s).

(** gomux.go:34-57. *)
Definition TLS : Option := fun s => setTls true s.
Definition TLSConfig (conf : tls.Config) : Option :=
  fun s => setTls true (setTlsconfig conf s).
Definition CustomCors (c : cors.Cors) : Option := fun s => setCors c s.
Definition Port (p : Z) : Option := fun s => setPort p s.

Definition defaultTLSConfig : tls.Config :=
  tls.mkConfig tls.VersionTLS12
    [tls.CurveP521; tls.CurveP384; tls.CurveP256]
    true
    [tls.TLS_ECDHE_RSA_WITH_AES_256_GCM_SHA384;
     tls.TLS_ECDHE_RSA_WITH_AES_256_CBC_SHA;
     tls.TLS_RSA_WITH_AES_256_GCM_SHA384;
     tls.TLS_RSA_WITH_AES_256_CBC_SHA].

Definition defaultCors : cors.Cors :=
  cors.New (cors.mkOptions ["*"] true
              ["GET"; "POST"; "OPTIONS"; "PUT"; "DELETE"]
              ["Origin"; "Content-Type"; "Accept"; "Authorization"]).

(** gomux.go:59-88; the zero values of [tls] and [port] are false and 0. *)
Definition New (c : Context) (nm : string) (opts : list Option) : Server :=
  fold_left (fun s opt => opt s) opts
    (mkServer nm c (mux.mkRouter true ("/" +:+ nm) []) false 0
       defaultTLSConfig defaultCors).

(** ** Route table builder *)

(** gomux.go:98-185, the convenience constructors; the handler given may be
    nil. *)
Definition NewRoute (method path : string) (handler : option ServiceHandler) : Route :=
  mkRoute method path handler None.
Definition NewRouteFn (method path : string) (handler : option http.HandlerFunc) : Route :=
  mkRoute method path None handler.
Definition Get (path : string) (handler : option ServiceHandler) : Route :=
  mkRoute "GET" path handler None.
Definition GetFn (path : string) (handler : option http.HandlerFunc) : Route :=
  mkRoute "GET" path None handler.
Definition Post (path : string) (handler : option ServiceHandler) : Route :=
  mkRoute "POST" path handler None.
Definition PostFn (path : string) (handler : option http.HandlerFunc) : Route :=
  mkRoute "POST" path None handler.
Definition Delete (path : string) (handler : option ServiceHandler) : Route :=
  mkRoute "DELETE" path handler None.
Definition DeleteFn (path : string) (handler : option http.HandlerFunc) : Route :=
  mkRoute "DELETE" path None handler.
Definition Put (path : string) (handler : option ServiceHandler) : Route :=
  mkRoute "PUT" path handler None.
Definition PutFn (path : string) (handler : option http.HandlerFunc) : Route :=
  mkRoute "PUT" path None handler.

(** gomux.go:189, the path a route is registered under. *)
Definition normalizePath (path : string) : string :=
  "/" +:+ TrimPrefix path "/".

(** gomux.go:190-192, the handler a route is registered with. *)
Definition chosenHandler (route : Route) : option http.HandlerFunc :=
  match Handler route with
  | Some h => Some (responseHandler h)
  | None => HandlerFunc route
  end.

(** One turn of the loop of gomux.go:188-198, on the server and the log. *)
Definition addRoute (acc : Server * list LogEntry) (route : Route)
  : Server * list LogEntry :=
  let s := fst acc in
  let path := normalizePath (Path route) in
  let hf := chosenHandler route in
  let err := muxError (mux s) (Method route) path in
  let reg := mux.mkRegistration (Method route) path hf err in
  let s' := setMux (mux.mkRouter (mux.strictSlash (mux s)) (mux.pathPrefix (mux s))
                      (mux.registered (mux s) ++ [reg])%list) s in
  match err with
  | Some why =>
      (s', (snd acc ++ [LogError (errors.E http.StatusUnprocessableEntity
                                    errors.Invalid (ErrOpaque why) (stackAt 196))])%list)
  | None => (s', snd acc)
  end.

(** gomux.go:187-201. *)
Definition AddRoutes (s : Server) (routes : list Route) (lg : list LogEntry)
  : Server * list LogEntry :=
  fold_left addRoute routes (s, lg).

(** ** Server life cycle *)

(** gomux.go:212-217. *)
Definition httpServer (s : Server) : http.Server (cors.Cors * mux.Router) :=
  http.mkServer (":" +:+ pretty (port s)) (cors s, mux s) (tlsconfig s) [].

(** gomux.go:219-224, once the port is known. *)
Definition listen (s : Server) (asked : list SysCall) : Served :=
  let srv := httpServer s in
  let line := LogLine (newline +:+ name s +:+ " started on port "
                         +:+ pretty (port s) +:+ newline) in
  if tls s
  then mkServed s (asked ++ [SysListenAndServeTLS srv "server.crt" "server.key"])%list
         [line] (FromListener (listenError srv))
  else mkServed s (asked ++ [SysListenAndServe srv])%list
         [line] (FromListener (listenError srv)).

(** gomux.go:203-225. *)
Definition Serve (s : Server) : Served :=
  if (port s =? 0)%Z
  then match GetFreePort with
       | inr why =>
           mkServed s [SysGetFreePort] []
             (Structured (errors.E errors.CodeServerError errors.HTTP
                            (ErrOpaque why) (stackAt 207)))
       | inl free => listen (setPort free s) [SysGetFreePort]
       end
  else listen s [].

End Gomux.

(** The state the business handler is called in: gomux.go:229 has set the
    content type. *)
Definition withContentType (st : State) : State :=
  mkState (heap st)
    (calls st ++ [SetHeader "Content-Type" "application/json"])%list (logs st).

(** The status gomux.go:235-238 writes for a structured error. *)
Definition statusOf (e : Error) : Z :=
  if (errors.Code e =? 0)%Z then http.StatusInternalServerError else errors.Code e.

(** The number of [WriteHeader] calls among the calls made on a writer. *)
Fixpoint statusWrites (cs : list WCall) : nat :=
  match cs with
  | [] => O
  | WriteHeader _ :: rest => S (statusWrites rest)
  | _ :: rest => statusWrites rest
  end.

(** The number of slashes a path starts with. *)
Fixpoint leadingSlashes (s : string) : nat :=
  match s with
  | String a rest => if Ascii.eqb a "/"%char then S (leadingSlashes rest) else O
  | EmptyString => O
  end.

(** The entry [AddRoutes] logs for a registration, if it logs one
    (gomux.go:194-197). *)
Definition registrationLog {W : World} (reg : mux.Registration) : option LogEntry :=
  match mux.regErr reg with
  | Some why =>
      Some (LogError (errors.E http.StatusUnprocessableEntity errors.Invalid
                        (ErrOpaque why) (stackAt 196)))
  | None => None
  end.

(** A registration is the one of a route. *)
Definition registers (W : World) (route : Route) (reg : mux.Registration) : Prop :=
  mux.regMethod reg = Method route
  /\ mux.regPath reg = normalizePath (Path route)
  /\ mux.regHandler reg = chosenHandler route.

(** ** A concrete world, to run the definitions in *)
Module Demo.

Definition dq : string := String (ascii_of_nat 34) EmptyString.

Definition kindNumber (k : errors.Kind) : Z :=
  match k with
  | errors.Other => 0
  | errors.Invalid => 1
  | errors.HTTP => 2
  | errors.Encoding => 3
  | errors.IO => 4
  end.

Definition causeOf (h : Heap) (c : option GoError) : JSON :=
  match c with
  | Some (ErrOpaque msg) => JStr msg
  | Some (ErrPtr l) =>
      match h !! l with
      | Some e => JNum (errors.Code e)
      | None => JNull
      end
  | None => JNull
  end.

(** The router refuses a path that opens a brace and never closes it. *)
Definition refuse (rt : mux.Router) (method path : string) : option string :=
  if String.eqb path "/user/{id"
  then Some "mux: unbalanced braces"
  else None.

(** A world where the connection is broken or not, and where a free port is
    found or not. *)
Definition world (broken : bool) (free : Z + string) : World :=
  {| quote := fun s => dq +:+ s +:+ dq;
     kindNum := kindNumber;
     causeJSON := causeOf;
     stackAt := fun _ => [];
     transport := fun _ _ => if broken then Some "broken pipe" else None;
     muxError := refuse;
     GetFreePort := free;
     listenError := fun _ => "http: Server closed" |}.

Definition good : World := world false (inl 40000).
Definition brokenPipe : World := world true (inl 40000).
Definition noPort : World := world false (inr "no free port").

Definition req : http.Request := http.mkRequest "GET" "/api/users" EmptyString.

Definition st0 : State := mkState ∅ [] [].

(** The README's three handlers. *)
Definition Users : ServiceHandler :=
  fun _ => ret (IValue (JObj [("id", JNum 1); ("name", JStr "Hunter")]), None).

Definition SaveUser : ServiceHandler :=
  fun _ =>
    l <-- alloc (errors.E errors.CodeBadRequest errors.Invalid
                   (ErrOpaque "Invalid User ID") []) ;;
    ret (INil, Some (ErrPtr l)).

Definition DeleteUser : ServiceHandler :=
  fun _ => ret (INil, None).

(** A handler failing with an error built without a code. *)
Definition NoCode : ServiceHandler :=
  fun _ =>
    l <-- alloc (errors.mkError 0 "lookup" errors.IO None []) ;;
    ret (INil, Some (ErrPtr l)).

(** A handler failing with an error of another package. *)
Definition Opaque : ServiceHandler :=
  fun _ => ret (INil, Some (ErrOpaque "sql: no rows in result set")).

(** A handler returning a value encoding/json refuses. *)
Definition Channel : ServiceHandler :=
  fun _ => ret (IUnsupported "json: unsupported type: chan int", None).

Definition Raw : http.HandlerFunc :=
  fun _ => call (WriteHeader 202) ;;; call (WriteBody "Successful Call!").

Definition api : Server := New Background "api" [].

End Demo.

(** ** The options gomux.go provides, by name *)

(** gomux.go:34-57 declares four options; a value of this type names one. *)
Inductive BuiltinOption :=
| OptTLS
| OptTLSConfig (conf : tls.Config)
| OptCustomCors (c : cors.Cors)
| OptPort (p : Z).

Definition optionOf (b : BuiltinOption) : Option :=
  match b with
  | OptTLS => TLS
  | OptTLSConfig conf => TLSConfig conf
  | OptCustomCors c => CustomCors c
  | OptPort p => Port p
  end.

(** Two names of the same declaration. *)
Definition sameKind (a b : BuiltinOption) : bool :=
  match a, b with
  | OptTLS, OptTLS => true
  | OptTLSConfig _, OptTLSConfig _ => true
  | OptCustomCors _, OptCustomCors _ => true
  | OptPort _, OptPort _ => true
  | _, _ => false
  end.

(** What a list of options says about each field, read from left to right:
    the value of the last option naming the field, or [d] when none does. *)
Fixpoint lastPort (d : Z) (bs : list BuiltinOption) : Z :=
  match bs with
  | [] => d
  | OptPort p :: rest => lastPort p rest
  | _ :: rest => lastPort d rest
  end.

Fixpoint lastTLSConfig (d : tls.Config) (bs : list BuiltinOption) : tls.Config :=
  match bs with
  | [] => d
  | OptTLSConfig conf :: rest => lastTLSConfig conf rest
  | _ :: rest => lastTLSConfig d rest
  end.

Fixpoint lastCors (d : cors.Cors) (bs : list BuiltinOption) : cors.Cors :=
  match bs with
  | [] => d
  | OptCustomCors c :: rest => lastCors c rest
  | _ :: rest => lastCors d rest
  end.

Fixpoint anyTLS (bs : list BuiltinOption) : bool :=
  match bs with
  | [] => false
  | OptTLS :: _ => true
  | OptTLSConfig _ :: _ => true
  | _ :: rest => anyTLS rest
  end.

(** The number of [Write] calls among the calls made on a writer. *)
Fixpoint bodyWrites (cs : list WCall) : nat :=
  match cs with
  | [] => O
  | WriteBody _ :: rest => S (bodyWrites rest)
  | _ :: rest => bodyWrites rest
  end.

(** The routes the convenience constructors of gomux.go:98-185 build from a
    method, a path and one handler of either variant (nil or not), each with
    its method and with the handler [AddRoutes] is to register for it. *)
Definition builtRoutes {W : World} (m p : string) (h : option ServiceHandler)
    (raw : option http.HandlerFunc)
  : list (Route * string * option http.HandlerFunc) :=
  [ (NewRoute m p h, m, option_map responseHandler h);
    (Get p h, "GET", option_map responseHandler h);
    (Post p h, "POST", option_map responseHandler h);
    (Delete p h, "DELETE", option_map responseHandler h);
    (Put p h, "PUT", option_map responseHandler h);
    (NewRouteFn m p raw, m, raw);
    (GetFn p raw, "GET", raw);
    (PostFn p raw, "POST", raw);
    (DeleteFn p raw, "DELETE", raw);
    (PutFn p raw, "PUT", raw) ].

(** ** More handlers and worlds to run the definitions in *)
Module Cases.

(** A handler returning a nil [*errors.Error] as its error. *)
Definition NilError : ServiceHandler :=
fun _ => ret (INil, Some (ErrPtr 1%positive)).

(** A handler returning an error object as its result, with no error. *)
Definition ErrorAsResult : ServiceHandler :=
fun _ =>
  l <-- alloc (errors.mkError 0 "lookup" errors.IO None []) ;;
  ret (IErrorPtr l, None).

(** SaveUser of the README, returning a value beside the error. *)
Definition SaveUserWithData : ServiceHandler :=
fun _ =>
  l <-- alloc (errors.E errors.CodeBadRequest errors.Invalid
                 (ErrOpaque "Invalid User ID") []) ;;
  ret (IValue (JNum 7), Some (ErrPtr l)).

(** A handler that builds two errors and returns the second one. *)
Definition TwoErrors : ServiceHandler :=
fun _ =>
  l1 <-- alloc (errors.mkError 404 "first" errors.Other None []) ;;
  l2 <-- alloc (errors.mkError 0 "second" errors.IO (Some (ErrPtr l1)) []) ;;
  ret (INil, Some (ErrPtr l2)).

(** A handler failing with an error whose code is no status code. *)
Definition BadCode : ServiceHandler :=
fun _ =>
  l <-- alloc (errors.mkError 42 "answer" errors.Other None []) ;;
  ret (INil, Some (ErrPtr l)).

(** The same, after the handler has written to the writer it was given. *)
Definition WritesThenBadCode : ServiceHandler :=
fun _ =>
  call (WriteBody "partial") ;;;
  l <-- alloc (errors.mkError 42 "answer" errors.Other None []) ;;
  ret (INil, Some (ErrPtr l)).

(** A world whose router refuses nothing. *)
Definition lenient : World :=
{| quote := fun s => Demo.dq +:+ s +:+ Demo.dq;
   kindNum := Demo.kindNumber;
   causeJSON := Demo.causeOf;
   stackAt := fun _ => [];
   transport := fun _ _ => None;
   muxError := fun _ _ _ => None;
   GetFreePort := inl 40000;
   listenError := fun _ => "http: Server closed" |}.

End Cases.

(** * Properties *)

Section Properties.
Context {W : World}.

Lemma setCode_same (e : Error) : errors.setCode (errors.Code e) e = e.
Proof. destruct e; reflexivity. Qed.

Lemma fresh_lookup (h : Heap) : h !! fresh (dom h) = None.
Proof. apply not_elem_of_dom, is_fresh. Qed.

Lemma alloc_grows (h : Heap) (e : Error) : h ⊆ <[fresh (dom h) := e]> h.
Proof. apply insert_subseteq, fresh_lookup. Qed.

Lemma call_accepted (c : WCall) (st : State) :
  accepts (calls st) c = true ->
  call c st = (Done tt, mkState (heap st) (calls st ++ [c])%list (logs st)).
Proof. intros Hok. unfold call. rewrite Hok. reflexivity. Qed.

Lemma call_refused (c : WCall) (st : State) :
  accepts (calls st) c = false -> call c st = (Panicked, st).
Proof. intros Hno. unfold call. rewrite Hno. reflexivity. Qed.

Lemma validStatus_range (code : Z) :
  validStatus code = true <-> 100 <= code <= 999.
Proof. unfold validStatus. rewrite andb_true_iff, !Z.leb_le. tauto. Qed.

Ltac step_call :=
  unfold bind at 1; rewrite call_accepted by reflexivity; cbv beta iota.

(** The three ways [writeContent] ends. *)
Lemma writeContent_run (r : http.Request) (data : iface) (st : State) :
  writeContent r data st =
  match Encode (heap st) data with
  | inr why =>
      let l := fresh (dom (heap st)) in
      (Done (Some (ErrPtr l)),
       mkState (<[l := errors.E errors.CodeServerError errors.Encoding
                         (ErrOpaque why) (stackAt 259)]> (heap st))
         (calls st ++ [WriteHeader http.StatusInternalServerError])%list
         (logs st))
  | inl buf =>
      match transport (calls st) buf with
      | Some why =>
          let l := fresh (dom (heap st)) in
          (Done (Some (ErrPtr l)),
           mkState (<[l := errors.E errors.CodeServerError errors.IO
                             (ErrOpaque why) (stackAt 264)]> (heap st))
             (calls st ++ [WriteBody buf;
                           WriteHeader http.StatusInternalServerError])%list
             (logs st))
      | None =>
          (Done None,
           mkState (heap st) (calls st ++ [WriteBody buf])%list (logs st))
      end
  end.
Proof.
  unfold writeContent.
  destruct (Encode (heap st) data) as [buf|why].
  - destruct (transport (calls st) buf) as [why|].
    + do 2 step_call. unfold bind, alloc, ret; cbn [heap calls logs].
      rewrite <- app_assoc. reflexivity.
    + step_call. reflexivity.
  - step_call. reflexivity.
Qed.

(** [respond] always returns; what it called and logged depends on the
    encoder and on the transport only. *)
Lemma respond_run (r : http.Request) (data : iface) (st : State) :
  exists st2, respond r data st = (Done tt, st2) /\ heap st ⊆ heap st2 /\
  match Encode (heap st) data with
  | inr _ =>
      calls st2 = (calls st ++ [WriteHeader http.StatusInternalServerError])%list
      /\ exists e, logs st2 = (logs st ++ [LogError e])%list
  | inl buf =>
      match transport (calls st) buf with
      | Some _ =>
          calls st2 = (calls st ++ [WriteBody buf;
                           WriteHeader http.StatusInternalServerError])%list
          /\ exists e, logs st2 = (logs st ++ [LogError e])%list
      | None =>
          calls st2 = (calls st ++ [WriteBody buf])%list
          /\ logs st2 = logs st
      end
  end.
Proof.
  unfold respond, bind. rewrite writeContent_run.
  destruct (Encode (heap st) data) as [buf|why].
  - destruct (transport (calls st) buf) as [why|]; cbn.
    + eexists; split; [reflexivity|]. cbn. eauto using alloc_grows.
    + eexists; split; [reflexivity|]. cbn. eauto.
  - cbn. eexists; split; [reflexivity|]. cbn. eauto using alloc_grows.
Qed.

Lemma responseHandler_unfold (fn : ServiceHandler) (r : http.Request) (st0 : State) :
  responseHandler fn r st0 =
  match fn r (withContentType st0) with
  | (Done res, st1) =>
      match classify (fst res) (snd res) st1 with
      | (Done data, st) => respond r data st
      | (Panicked, st) => (Panicked, st)
      end
  | (Panicked, st1) => (Panicked, st1)
  end.
Proof.
  unfold responseHandler. step_call. fold (withContentType st0).
  unfold bind. destruct (fn r _) as [[res|] st1]; reflexivity.
Qed.

(** [classify] on a structured error whose status the writer takes: the
    object is updated in place when its code is zero, its code is written,
    and the object is the data. *)
Lemma classify_typed (data : iface) (l : loc) (e : Error) (st1 : State) :
  heap st1 !! l = Some e ->
  accepts (calls st1) (WriteHeader (statusOf e)) = true ->
  classify data (Some (ErrPtr l)) st1 =
  (Done (IErrorPtr l),
   mkState (<[l := errors.setCode (statusOf e) e]> (heap st1))
     (calls st1 ++ [WriteHeader (statusOf e)])%list (logs st1)).
Proof.
  intros Hl Hok. unfold classify, bind at 1, deref. rewrite Hl.
  unfold statusOf in *.
  destruct (errors.Code e =? 0)%Z eqn:Hc.
  - unfold bind at 1, store. unfold bind at 1, deref. cbn [heap calls logs].
    rewrite lookup_insert_eq. step_call. reflexivity.
  - unfold bind at 1, ret. unfold bind at 1, deref. rewrite Hl.
    unfold bind at 1. rewrite (call_accepted _ _ Hok).
    cbn [heap calls logs].
    rewrite setCode_same, (insert_id _ _ _ Hl). reflexivity.
Qed.

(** [classify] on a structured error whose status the writer refuses: the
    adapter panics in the state the handler left. *)
Lemma classify_refused (data : iface) (l : loc) (e : Error) (st1 : State) :
  heap st1 !! l = Some e ->
  accepts (calls st1) (WriteHeader (statusOf e)) = false ->
  classify data (Some (ErrPtr l)) st1 = (Panicked, st1).
Proof.
  intros Hl Hno. unfold classify, bind at 1, deref. rewrite Hl.
  unfold statusOf in *.
  destruct (errors.Code e =? 0)%Z eqn:Hc; [discriminate|].
  unfold bind at 1, ret. unfold bind at 1, deref. rewrite Hl.
  unfold bind at 1. rewrite (call_refused _ _ Hno). reflexivity.
Qed.

Lemma statusOf_in_range (e : Error) (cs : list WCall) :
  errors.Code e = 0 \/ 100 <= errors.Code e <= 999 ->
  accepts cs (WriteHeader (statusOf e)) = true.
Proof.
  intros Hr. unfold accepts, statusOf.
  destruct (Z.eqb_spec (errors.Code e) 0) as [Hz|Hnz]; [reflexivity|].
  destruct Hr as [Hz|Hr]; [contradiction|].
  rewrite (proj2 (validStatus_range _) Hr). reflexivity.
Qed.

Lemma Encode_error (h : Heap) (l : loc) (e : Error) :
  h !! l = Some e ->
  Encode h (IErrorPtr l) = inl (render (marshalError h e) +:+ newline).
Proof. intros Hl. unfold Encode, toJSON. rewrite Hl. reflexivity. Qed.

(** What the handler does once [classify] has written the status [status]
    and chosen the error object at [l] as the data. *)
Lemma respond_error (r : http.Request) (l : loc) (obj : Error) (st : State) :
  heap st !! l = Some obj ->
  exists st2 tail,
    respond r (IErrorPtr l) st = (Done tt, st2)
    /\ heap st2 !! l = Some obj
    /\ calls st2 = (calls st
                      ++ WriteBody (render (marshalError (heap st) obj) +:+ newline)
                      :: tail)%list
    /\ (tail = [] \/ tail = [WriteHeader http.StatusInternalServerError]).
Proof.
  intros Hl.
  destruct (respond_run r (IErrorPtr l) st) as (st2 & Hrun & Hsub & Hcases).
  rewrite (Encode_error _ _ _ Hl) in Hcases.
  assert (heap st2 !! l = Some obj) as Hl2
    by (eapply lookup_weaken; eassumption).
  destruct (transport _ _) as [why|].
  - destruct Hcases as [Hc _].
    exists st2, [WriteHeader http.StatusInternalServerError]. auto.
  - destruct Hcases as [Hc _]. exists st2, []. auto.
Qed.

(** The run of the adapter on a structured error whose status the writer
    takes, shared by the claims about it. *)
Lemma responseHandler_typed
    (fn : ServiceHandler) (r : http.Request) (st0 st1 : State)
    (data : iface) (l : loc) (e : Error) :
  fn r (withContentType st0) = (Done (data, Some (ErrPtr l)), st1) ->
  heap st1 !! l = Some e ->
  accepts (calls st1) (WriteHeader (statusOf e)) = true ->
  let status := if (errors.Code e =? 0)%Z
                then 500 else errors.Code e in
  let obj := errors.setCode status e in
  exists st2 tail,
    responseHandler fn r st0 = (Done tt, st2)
    /\ heap st2 !! l = Some obj
    /\ calls st2 =
         (calls st1
            ++ WriteHeader status
            :: WriteBody (render (marshalError (<[l := obj]> (heap st1)) obj)
                          +:+ newline)
            :: tail)%list
    /\ (tail = [] \/ tail = [WriteHeader 500]).
Proof.
  intros Hfn Hl Hok status obj.
  rewrite responseHandler_unfold, Hfn. cbn [fst snd].
  rewrite (classify_typed data l e st1 Hl Hok).
  change (statusOf e) with status. fold obj.
  set (st := mkState _ _ _).
  assert (heap st !! l = Some obj) as Hobj by apply lookup_insert_eq.
  destruct (respond_error r l obj st Hobj) as (st2 & tail & Hrun & Hl2 & Hc & Ht).
  exists st2, tail. repeat split; auto.
  rewrite Hc. subst st. cbn [calls heap]. rewrite <- app_assoc. reflexivity.
Qed.

(** C1 (as amended).  When the business handler returns a structured error,
    a pointer to an [errors.Error] whose code C is zero or a status code the
    writer takes (100 to 999), the first thing the adapter calls on the
    writer after the handler has returned is [WriteHeader] with C, or with
    500 when C is zero; the next call writes the body, and the body is the
    JSON form of that same error object, followed by a newline.  The
    handler's own data is not used. *)
Theorem C1_valid_code_is_status_and_body
    (fn : ServiceHandler) (r : http.Request) (st0 st1 : State)
    (data : iface) (l : loc) (e : Error) :
  fn r (withContentType st0) = (Done (data, Some (ErrPtr l)), st1) ->
  heap st1 !! l = Some e ->
  errors.Code e = 0 \/ 100 <= errors.Code e <= 999 ->
  let status := if (errors.Code e =? 0)%Z
                then 500 else errors.Code e in
  let obj := errors.setCode status e in
  exists st2 tail,
    responseHandler fn r st0 = (Done tt, st2)
    /\ (errors.Code e <> 0 -> obj = e)
    /\ heap st2 !! l = Some obj
    /\ calls st2 =
         (calls st1
            ++ WriteHeader status
            :: WriteBody (render (marshalError (<[l := obj]> (heap st1)) obj)
                          +:+ newline)
            :: tail)%list
    /\ (tail = [] \/ tail = [WriteHeader 500]).
Proof.
  intros Hfn Hl Hrange status obj.
  destruct (responseHandler_typed fn r st0 st1 data l e Hfn Hl
              (statusOf_in_range e (calls st1) Hrange))
    as (st2 & tail & Hrun & Hl2 & Hc & Ht).
  exists st2, tail. repeat split; auto.
  intros Hne. subst obj status.
  destruct (Z.eqb_spec (errors.Code e) 0) as [Hz|_]; [congruence|].
  apply setCode_same.
Qed.

(** C9.  When the structured error the handler returns has code 0, the
    adapter assigns 500 to the code of that very object: after the request
    the object at the same address has code 500 and is otherwise unchanged,
    the status written is 500, and the body written is the JSON form of the
    updated object, whose code field reads 500. *)
Theorem C9_zero_code_is_overwritten_in_place
    (fn : ServiceHandler) (r : http.Request) (st0 st1 : State)
    (data : iface) (l : loc) (e : Error) :
  fn r (withContentType st0) = (Done (data, Some (ErrPtr l)), st1) ->
  heap st1 !! l = Some e ->
  errors.Code e = 0 ->
  let obj := errors.setCode 500 e in
  let body := marshalError (<[l := obj]> (heap st1)) obj in
  exists st2 tail,
    responseHandler fn r st0 = (Done tt, st2)
    /\ heap st2 !! l = Some obj
    /\ errors.Code obj = 500
    /\ jsonField "code" body = Some (JNum 500)
    /\ calls st2 =
         (calls st1 ++ WriteHeader 500
                    :: WriteBody (render body +:+ newline) :: tail)%list
    /\ (tail = [] \/ tail = [WriteHeader 500]).
Proof.
  intros Hfn Hl Hz obj body.
  destruct (responseHandler_typed fn r st0 st1 data l e Hfn Hl
              (statusOf_in_range e (calls st1) (or_introl Hz)))
    as (st2 & tail & Hrun & Hl2 & Hc & Ht).
  rewrite Hz in Hl2, Hc. change (0 =? 0)%Z with true in Hl2, Hc.
  cbv iota in Hl2, Hc.
  exists st2, tail. repeat split; auto.
Qed.

Lemma statusWrites_app (a b : list WCall) :
  statusWrites (a ++ b) = (statusWrites a + statusWrites b)%nat.
Proof.
  induction a as [|c a IH]; [reflexivity|].
  destruct c; cbn; rewrite IH; reflexivity.
Qed.

Lemma classify_opaque (d : iface) (msg : string) (st1 : State) :
  classify d (Some (ErrOpaque msg)) st1 =
  (Done (IErrorPtr (fresh (dom (heap st1)))),
   mkState (<[fresh (dom (heap st1)) :=
                errors.E errors.CodeServerError errors.Invalid
                  (ErrOpaque msg) (stackAt 242)]> (heap st1))
     (calls st1 ++ [WriteHeader 500])%list (logs st1)).
Proof. unfold classify. step_call. reflexivity. Qed.

Lemma classify_no_error (d : iface) (st1 : State) :
  classify d None st1 =
  (Done d, mkState (heap st1) (calls st1 ++ [WriteHeader 200])%list (logs st1)).
Proof. unfold classify. step_call. reflexivity. Qed.

Lemma classify_nil (d : iface) (l : loc) (st1 : State) :
  heap st1 !! l = None ->
  classify d (Some (ErrPtr l)) st1 = (Panicked, st1).
Proof.
  intros Hl. unfold classify, bind, deref. rewrite Hl. reflexivity.
Qed.

(** [classify] calls [WriteHeader] once and logs nothing, whenever it
    returns. *)
Lemma classify_calls (d : iface) (err : option GoError) (st1 st : State)
    (data : iface) :
  classify d err st1 = (Done data, st) ->
  exists status,
    calls st = (calls st1 ++ [WriteHeader status])%list /\ logs st = logs st1.
Proof.
  destruct err as [[l|msg]|]; intros Hc.
  - destruct (heap st1 !! l) as [e|] eqn:Hl.
    + destruct (accepts (calls st1) (WriteHeader (statusOf e))) eqn:Hok.
      * rewrite (classify_typed d l e st1 Hl Hok) in Hc.
        inversion Hc; subst; cbn. eauto.
      * rewrite (classify_refused d l e st1 Hl Hok) in Hc. discriminate.
    + rewrite (classify_nil d l st1 Hl) in Hc. discriminate.
  - rewrite classify_opaque in Hc. inversion Hc; subst; cbn. eauto.
  - rewrite classify_no_error in Hc. inversion Hc; subst; cbn. eauto.
Qed.

(** C4.  When the business handler returns an error that is not a
    [*errors.Error], the adapter writes status 500, builds a new
    [errors.Error] of kind Invalid and code 500 around the original error,
    and writes the JSON form of that new object as the body: an object with
    the fields of an [errors.Error], whatever the original error was. *)
Theorem C4_opaque_error_is_wrapped
    (fn : ServiceHandler) (r : http.Request) (st0 st1 : State)
    (data : iface) (msg : string) :
  fn r (withContentType st0) = (Done (data, Some (ErrOpaque msg)), st1) ->
  let l := fresh (dom (heap st1)) in
  let wrapped := errors.E errors.CodeServerError errors.Invalid
                   (ErrOpaque msg) (stackAt 242) in
  let body := marshalError (<[l := wrapped]> (heap st1)) wrapped in
  exists st2 tail,
    responseHandler fn r st0 = (Done tt, st2)
    /\ heap st1 !! l = None
    /\ heap st2 !! l = Some wrapped
    /\ errors.EKind wrapped = errors.Invalid
    /\ errors.Code wrapped = 500
    /\ errors.Err wrapped = Some (ErrOpaque msg)
    /\ jsonField "kind" body = Some (JNum (kindNum errors.Invalid))
    /\ jsonField "code" body = Some (JNum 500)
    /\ errorShaped body = true
    /\ calls st2 =
         (calls st1 ++ WriteHeader 500
                    :: WriteBody (render body +:+ newline) :: tail)%list
    /\ (tail = [] \/ tail = [WriteHeader 500]).
Proof.
  intros Hfn l wrapped body.
  rewrite responseHandler_unfold, Hfn. cbn [fst snd].
  rewrite classify_opaque.
  fold l. fold wrapped.
  set (st := mkState _ _ _).
  assert (heap st !! l = Some wrapped) as Hobj by apply lookup_insert_eq.
  destruct (respond_error r l wrapped st Hobj)
    as (st2 & tail & Hrun & Hl2 & Hc & Ht).
  exists st2, tail. repeat split; auto.
  - apply fresh_lookup.
  - rewrite Hc. subst st. cbn [calls heap]. rewrite <- app_assoc. reflexivity.
Qed.

(** C5.  When the business handler returns no error, the first call the
    adapter makes on the writer after the handler has returned is
    [WriteHeader 200]; the value returned is what is serialized: whenever it
    has a JSON form, the next call writes that form and a newline.  For the
    nil value the form is null, which is not an error object, and the body
    is the text null and a newline. *)
Theorem C5_success_status_and_body
    (fn : ServiceHandler) (r : http.Request) (st0 st1 : State) (data : iface) :
  fn r (withContentType st0) = (Done (data, None), st1) ->
  exists st2 rest,
    responseHandler fn r st0 = (Done tt, st2)
    /\ calls st2 = (calls st1 ++ WriteHeader 200 :: rest)%list
    /\ (forall j, toJSON (heap st1) data = inl j ->
         exists tail,
           rest = WriteBody (render j +:+ newline) :: tail
           /\ (tail = [] \/ tail = [WriteHeader 500]))
    /\ (data = INil ->
         toJSON (heap st1) data = inl JNull
         /\ errorShaped JNull = false
         /\ exists tail,
              rest = WriteBody ("null" +:+ newline) :: tail
              /\ (tail = [] \/ tail = [WriteHeader 500])).
Proof.
  intros Hfn.
  rewrite responseHandler_unfold, Hfn. cbn [fst snd].
  rewrite classify_no_error.
  set (st := mkState _ _ _).
  destruct (respond_run r data st) as (st2 & Hrun & _ & Hcases).
  assert (forall j, toJSON (heap st1) data = inl j ->
          exists tail,
            calls st2 = (calls st ++ WriteBody (render j +:+ newline) :: tail)%list
            /\ (tail = [] \/ tail = [WriteHeader 500])) as Hbody.
  { intros j Hj. unfold Encode in Hcases.
    change (heap st) with (heap st1) in Hcases. rewrite Hj in Hcases.
    destruct (transport _ _) as [why|]; destruct Hcases as [Hc _]; eauto. }
  assert (exists rest, calls st2 = (calls st1 ++ WriteHeader 200 :: rest)%list)
    as [rest Hrest].
  { destruct (Encode (heap st) data) as [buf|why];
      [destruct (transport _ _) as [why|]|];
      destruct Hcases as [Hc _]; rewrite Hc; subst st; cbn [calls];
      rewrite <- app_assoc; eauto. }
  assert (forall j, toJSON (heap st1) data = inl j ->
          exists tail,
            rest = WriteBody (render j +:+ newline) :: tail
            /\ (tail = [] \/ tail = [WriteHeader 500])) as Hrest_body.
  { intros j Hj. destruct (Hbody j Hj) as (tail & Hc & Ht).
    exists tail. split; [|exact Ht].
    rewrite Hrest in Hc. subst st. cbn [calls] in Hc.
    rewrite <- app_assoc in Hc. apply app_inv_head in Hc.
    cbn in Hc. congruence. }
  exists st2, rest.
  split; [exact Hrun|]. split; [exact Hrest|]. split; [exact Hrest_body|].
  intros ->. split; [reflexivity|]. split; [reflexivity|].
  apply (Hrest_body JNull). reflexivity.
Qed.

(** C3 (as amended).  Whenever the adapter returns, it has called
    [WriteHeader] exactly once between the handler's return and the
    serialization, and logged nothing there.  If the data serializes and
    the transport accepts the bytes, one body write follows, nothing is
    logged, and there is one status write in all.  If the data does not
    serialize, [writeContent] calls [WriteHeader 500] a second time, no
    body is written, and one entry is logged.  If the transport refuses
    the bytes, [writeContent] calls [WriteHeader 500] after the body write,
    and one entry is logged.  Nothing is called on the writer after that. *)
Theorem C3_status_writes_of_the_adapter
    (fn : ServiceHandler) (r : http.Request) (st0 st2 : State) :
  responseHandler fn r st0 = (Done tt, st2) ->
  exists res st1 data st status,
    fn r (withContentType st0) = (Done res, st1)
    /\ classify (fst res) (snd res) st1 = (Done data, st)
    /\ calls st = (calls st1 ++ [WriteHeader status])%list
    /\ logs st = logs st1
    /\ match Encode (heap st) data with
       | inl buf =>
           match transport (calls st) buf with
           | None =>
               calls st2 = (calls st ++ [WriteBody buf])%list
               /\ logs st2 = logs st
               /\ statusWrites (calls st2) = S (statusWrites (calls st1))
           | Some _ =>
               calls st2 = (calls st ++ [WriteBody buf; WriteHeader 500])%list
               /\ (exists e, logs st2 = (logs st ++ [LogError e])%list)
               /\ statusWrites (calls st2) = S (S (statusWrites (calls st1)))
           end
       | inr _ =>
           calls st2 = (calls st ++ [WriteHeader 500])%list
           /\ (exists e, logs st2 = (logs st ++ [LogError e])%list)
           /\ statusWrites (calls st2) = S (S (statusWrites (calls st1)))
       end.
Proof.
  intros Hrun. rewrite responseHandler_unfold in Hrun.
  destruct (fn r (withContentType st0)) as [[res|] st1] eqn:Hfn;
    [|discriminate].
  destruct (classify (fst res) (snd res) st1) as [[data|] st] eqn:Hcl;
    [|discriminate].
  destruct (classify_calls _ _ _ _ _ Hcl) as (status & Hcalls & Hlogs).
  exists res, st1, data, st, status. repeat split; auto.
  destruct (respond_run r data st) as (st2' & Hrun' & _ & Hcases).
  rewrite Hrun in Hrun'. inversion Hrun'; subst st2'.
  destruct (Encode (heap st) data) as [buf|why];
    [destruct (transport _ _) as [why|]|];
    destruct Hcases as [Hc Hl]; repeat split; auto;
    rewrite Hc, Hcalls, !statusWrites_app; cbn; lia.
Qed.

(** ** The route table builder *)

Lemma normalizePath_cases (p : string) :
  match p with
  | String a rest =>
      if Ascii.eqb a "/"%char then normalizePath p = p
      else normalizePath p = "/" +:+ p
  | EmptyString => normalizePath p = "/"
  end.
Proof.
  destruct p as [|a rest]; [reflexivity|].
  unfold normalizePath, TrimPrefix. cbn [cutPrefix].
  rewrite (Ascii.eqb_sym "/"%char a).
  destruct (Ascii.eqb_spec a "/"%char) as [->|Hne]; reflexivity.
Qed.

Lemma AddRoutes_cons (s : Server) (route : Route) (rest : list Route)
    (lg : list LogEntry) :
  AddRoutes s (route :: rest) lg =
  AddRoutes (fst (addRoute (s, lg) route)) rest (snd (addRoute (s, lg) route)).
Proof.
  unfold AddRoutes. cbn [fold_left].
  destruct (addRoute (s, lg) route); reflexivity.
Qed.

Lemma AddRoutes_app (s : Server) (r1 r2 : list Route) (lg : list LogEntry) :
  AddRoutes s (r1 ++ r2) lg =
  AddRoutes (fst (AddRoutes s r1 lg)) r2 (snd (AddRoutes s r1 lg)).
Proof.
  unfold AddRoutes. rewrite fold_left_app.
  destruct (fold_left addRoute r1 (s, lg)); reflexivity.
Qed.

(** One turn of the loop, field by field. *)
Lemma addRoute_run (s : Server) (lg : list LogEntry) (route : Route) :
  let reg := mux.mkRegistration (Method route) (normalizePath (Path route))
               (chosenHandler route)
               (muxError (mux s) (Method route) (normalizePath (Path route))) in
  addRoute (s, lg) route =
  (setMux (mux.mkRouter (mux.strictSlash (mux s)) (mux.pathPrefix (mux s))
             (mux.registered (mux s) ++ [reg])%list) s,
   (lg ++ match registrationLog reg with Some e => [e] | None => [] end)%list).
Proof.
  intros reg. unfold addRoute, registrationLog. cbn [fst snd mux.regErr reg].
  destruct (muxError _ _ _); [reflexivity|].
  rewrite app_nil_r. reflexivity.
Qed.

(** The whole loop: one registration per route, in order, and one log entry
    per refused registration; the other fields of the server are kept. *)
Lemma AddRoutes_run (routes : list Route) (s : Server) (lg : list LogEntry) :
  exists regs,
    Forall2 (registers W) routes regs
    /\ AddRoutes s routes lg =
       (setMux (mux.mkRouter (mux.strictSlash (mux s)) (mux.pathPrefix (mux s))
                  (mux.registered (mux s) ++ regs)%list) s,
        (lg ++ omap registrationLog regs)%list).
Proof.
  revert s lg. induction routes as [|route rest IH]; intros s lg.
  - exists []. split; [constructor|].
    unfold AddRoutes; cbn. rewrite !app_nil_r. destruct s as [? ? []]; reflexivity.
  - rewrite AddRoutes_cons, addRoute_run. cbn [fst snd].
    set (reg := mux.mkRegistration _ _ _ _).
    destruct (IH (setMux (mux.mkRouter (mux.strictSlash (mux s))
                            (mux.pathPrefix (mux s))
                            (mux.registered (mux s) ++ [reg])%list) s)
                (lg ++ match registrationLog reg with
                       | Some e => [e] | None => [] end)%list)
      as (regs & Hregs & Hrun).
    exists (reg :: regs). split.
    + constructor; [|exact Hregs]. repeat split.
    + rewrite Hrun. cbn. rewrite <- !app_assoc. cbn.
      destruct (registrationLog reg); reflexivity.
Qed.

Lemma leadingSlashes_normalizePath (p : string) :
  leadingSlashes (normalizePath p) = Nat.max 1 (leadingSlashes p).
Proof.
  pose proof (normalizePath_cases p) as Hp.
  destruct p as [|a rest]; [rewrite Hp; reflexivity|].
  destruct (Ascii.eqb a "/"%char) eqn:Ha; rewrite Hp.
  - cbn [leadingSlashes]. rewrite Ha. reflexivity.
  - change (leadingSlashes ("/" +:+ String a rest))
      with (S (leadingSlashes (String a rest))).
    cbn [leadingSlashes]. rewrite Ha. reflexivity.
Qed.

(** C2 (as amended).  A route is registered under its path with at most one
    leading slash removed and one prepended.  The registered path therefore
    always starts with a slash; it has exactly one leading slash when the
    input had none or one, and as many as the input when the input had
    more.  A path that already starts with a slash is registered as it is,
    so normalization is idempotent; users and /users are both registered as
    /users, under the router whose prefix is the slash and the server's
    name. *)
Theorem C2_registered_path_keeps_extra_slashes
    (s : Server) (route : Route) (lg : list LogEntry) :
  let p := Path route in
  (exists reg,
      mux.registered (mux (fst (AddRoutes s [route] lg)))
      = (mux.registered (mux s) ++ [reg])%list
      /\ mux.regPath reg = normalizePath p)
  /\ mux.pathPrefix (mux (fst (AddRoutes s [route] lg))) = mux.pathPrefix (mux s)
  /\ (forall c nm, mux.pathPrefix (mux (New c nm [])) = "/" +:+ nm)
  /\ (exists rest, normalizePath p = "/" +:+ rest)
  /\ leadingSlashes (normalizePath p) = Nat.max 1 (leadingSlashes p)
  /\ (forall q, p = "/" +:+ q -> normalizePath p = p)
  /\ normalizePath (normalizePath p) = normalizePath p
  /\ normalizePath "users" = "/users"
  /\ normalizePath "/users" = "/users".
Proof.
  intros p.
  split.
  { destruct (AddRoutes_run [route] s lg) as (regs & Hregs & Hrun).
    inversion Hregs as [|? reg ? regs' Hreg Hnil]; subst.
    inversion Hnil; subst.
    exists reg. rewrite Hrun. cbn. split; [reflexivity|]. apply Hreg. }
  split.
  { destruct (AddRoutes_run [route] s lg) as (regs & _ & Hrun).
    rewrite Hrun. reflexivity. }
  split; [reflexivity|].
  split; [eexists; reflexivity|].
  split; [apply leadingSlashes_normalizePath|].
  split.
  { intros q ->. reflexivity. }
  split; [reflexivity|].
  split; reflexivity.
Qed.

(** The route that follows others: the router is asked on the server as the
    routes before it left it, its answer is recorded with the registration,
    and a refusal is logged. *)
Lemma AddRoutes_snoc (s : Server) (before : list Route) (route : Route)
    (lg : list LogEntry) :
  let mid := AddRoutes s before lg in
  let err := muxError (mux (fst mid)) (Method route)
               (normalizePath (Path route)) in
  let reg := mux.mkRegistration (Method route) (normalizePath (Path route))
               (chosenHandler route) err in
  AddRoutes s (before ++ [route]) lg =
  (setMux (mux.mkRouter (mux.strictSlash (mux (fst mid)))
             (mux.pathPrefix (mux (fst mid)))
             (mux.registered (mux (fst mid)) ++ [reg])%list) (fst mid),
   (snd mid
      ++ match err with
         | Some why =>
             [LogError (errors.E 422 errors.Invalid (ErrOpaque why)
                          (stackAt 196))]
         | None => []
         end)%list).
Proof.
  intros mid err reg. rewrite AddRoutes_app. fold mid.
  unfold AddRoutes at 1. cbn [fold_left].
  rewrite addRoute_run. fold err. fold reg.
  unfold registrationLog. cbn [mux.regErr reg].
  destruct err; reflexivity.
Qed.

(** C6.  [AddRoutes] makes one registration for every route of the
    sequence, in order, whatever the router answers for the others.  For each
    route the router is asked on the server as the routes before it left it,
    and its answer is kept with the registration; each registration the
    router refuses adds one entry to the log, a structured error of kind
    Invalid with code 422 around the router's error, a registration it
    accepts adds none, and nothing else is logged.  The routes after a
    refused one are processed as after any other, and the result is the
    server it was called on, with the registrations added to its router. *)
Theorem C6_registration_is_best_effort
    (s : Server) (routes : list Route) (lg : list LogEntry) :
  exists regs,
    Forall2 (registers W) routes regs
    /\ length regs = length routes
    /\ mux.registered (mux (fst (AddRoutes s routes lg)))
       = (mux.registered (mux s) ++ regs)%list
    /\ snd (AddRoutes s routes lg) = (lg ++ omap registrationLog regs)%list
    /\ (forall reg why,
          In reg regs -> mux.regErr reg = Some why ->
          exists e,
            registrationLog reg = Some (LogError e)
            /\ errors.Code e = 422
            /\ errors.EKind e = errors.Invalid
            /\ errors.Err e = Some (ErrOpaque why)
            /\ In (LogError e) (snd (AddRoutes s routes lg)))
    /\ (forall reg, In reg regs -> mux.regErr reg = None ->
          registrationLog reg = None)
    /\ fst (AddRoutes s routes lg)
       = setMux (mux (fst (AddRoutes s routes lg))) s
    /\ (forall before after,
          routes = (before ++ after)%list ->
          AddRoutes s routes lg
          = AddRoutes (fst (AddRoutes s before lg)) after
              (snd (AddRoutes s before lg)))
    /\ (forall before route after,
          routes = (before ++ route :: after)%list ->
          let mid := AddRoutes s before lg in
          let next := AddRoutes s (before ++ [route]) lg in
          let err := muxError (mux (fst mid)) (Method route)
                       (normalizePath (Path route)) in
          let reg := mux.mkRegistration (Method route)
                       (normalizePath (Path route)) (chosenHandler route) err in
          regs !! length before = Some reg
          /\ mux.registered (mux (fst next))
             = (mux.registered (mux (fst mid)) ++ [reg])%list
          /\ snd next
             = (snd mid
                  ++ match err with
                     | Some why =>
                         [LogError (errors.E 422 errors.Invalid
                                      (ErrOpaque why) (stackAt 196))]
                     | None => []
                     end)%list
          /\ AddRoutes s routes lg = AddRoutes (fst next) after (snd next)).
Proof.
  destruct (AddRoutes_run routes s lg) as (regs & Hregs & Hrun).
  exists regs.
  split; [exact Hregs|].
  split; [symmetry; eapply Forall2_length; exact Hregs|].
  split; [rewrite Hrun; reflexivity|].
  split; [rewrite Hrun; reflexivity|].
  split.
  { intros reg why Hin Herr. eexists. unfold registrationLog. rewrite Herr.
    split; [reflexivity|]. repeat split.
    rewrite Hrun. cbn [snd].
    apply in_or_app. right. apply list_elem_of_In, list_elem_of_omap.
    exists reg. split; [apply list_elem_of_In, Hin|].
    unfold registrationLog. rewrite Herr. reflexivity. }
  split.
  { intros reg _ Herr. unfold registrationLog. rewrite Herr. reflexivity. }
  split; [rewrite Hrun; reflexivity|].
  split.
  { intros before after ->. apply AddRoutes_app. }
  intros before route after Hsplit mid next err reg.
  assert (AddRoutes s routes lg = AddRoutes (fst next) after (snd next))
    as Hrest.
  { rewrite Hsplit.
    replace (before ++ route :: after)%list
      with ((before ++ [route]) ++ after)%list
      by (rewrite <- app_assoc; reflexivity).
    apply AddRoutes_app. }
  pose proof (AddRoutes_snoc s before route lg) as Hnext.
  cbv zeta in Hnext. fold mid in Hnext. fold err in Hnext. fold reg in Hnext.
  fold next in Hnext.
  destruct (AddRoutes_run before s lg) as (regs_b & Hregs_b & Hrun_b).
  fold mid in Hrun_b.
  destruct (AddRoutes_run after (fst next) (snd next))
    as (regs_a & Hregs_a & Hrun_a).
  split.
  { assert (regs = regs_b ++ reg :: regs_a)%list as ->.
    { rewrite Hrun, Hrun_a, Hnext in Hrest. cbn [fst snd mux setMux] in Hrest.
      rewrite Hrun_b in Hrest.
      cbn [fst snd mux setMux mux.registered] in Hrest.
      inversion Hrest as [[Hreg_eq Hlog_eq]].
      rewrite <- !app_assoc in Hreg_eq. apply app_inv_head in Hreg_eq.
      exact Hreg_eq. }
    rewrite lookup_app_r by (rewrite (Forall2_length _ _ _ Hregs_b); lia).
    rewrite (Forall2_length _ _ _ Hregs_b), Nat.sub_diag. reflexivity. }
  split; [rewrite Hnext; reflexivity|].
  split; [rewrite Hnext; reflexivity|].
  exact Hrest.
Qed.

(** C10.  A route with both handlers set is registered with the adapter
    around [Handler]; the raw [HandlerFunc] is dropped.  [AddRoutes] does
    with such a route exactly what it does with the same route without the
    raw handler, wherever the route stands in the sequence: the server, the
    router's answer and the log are the same, so nothing reports the double
    setting. *)
Theorem C10_adapted_handler_overwrites_raw
    (s : Server) (m p : string) (h : ServiceHandler) (raw : http.HandlerFunc)
    (before after : list Route) (lg : list LogEntry) :
  let both := mkRoute m p (Some h) (Some raw) in
  let adapted := mkRoute m p (Some h) None in
  chosenHandler both = Some (responseHandler h)
  /\ AddRoutes s (before ++ both :: after) lg
     = AddRoutes s (before ++ adapted :: after) lg
  /\ (exists reg,
        mux.registered (mux (fst (AddRoutes s [both] lg)))
        = (mux.registered (mux s) ++ [reg])%list
        /\ mux.regHandler reg = Some (responseHandler h)
        /\ mux.regErr reg = muxError (mux s) m (normalizePath p))
  /\ (muxError (mux s) m (normalizePath p) = None ->
      snd (AddRoutes s [both] lg) = lg).
Proof.
  intros both adapted.
  split; [reflexivity|].
  split.
  { rewrite !AddRoutes_app, !AddRoutes_cons. reflexivity. }
  split.
  { eexists. unfold AddRoutes. cbn [fold_left]. rewrite addRoute_run.
    cbn. split; [reflexivity|]. split; reflexivity. }
  intros Hok. unfold AddRoutes. cbn [fold_left]. rewrite addRoute_run.
  unfold registrationLog. cbn. rewrite Hok. apply app_nil_r.
Qed.

(** ** Server configuration and life cycle *)

Lemma New_snoc (c : Context) (nm : string) (opts : list Option) (o : Option) :
  New c nm (opts ++ [o]) = o (New c nm opts).
Proof. unfold New. rewrite fold_left_app. reflexivity. Qed.

Lemma New_last (c : Context) (nm : string) (opts mid : list Option)
    (o1 o2 : Option) :
  New c nm (opts ++ o1 :: mid ++ [o2]) = o2 (New c nm (opts ++ o1 :: mid)).
Proof.
  rewrite <- New_snoc, <- app_assoc. reflexivity.
Qed.

(** Options that leave a field alone leave it as the options before them
    made it. *)
Lemma fold_options_keep {A : Type} (f : Server -> A) (post : list Option)
    (s : Server) :
  Forall (fun o : Option => forall s', f (o s') = f s') post ->
  f (fold_left (fun s' (opt : Option) => opt s') post s) = f s.
Proof.
  intros Hpost. revert s.
  induction Hpost as [|o post Ho _ IH]; intros s; [reflexivity|].
  cbn [fold_left]. rewrite IH. apply Ho.
Qed.

(** C8.  [New] applies the options from left to right: the server built
    from a sequence of options followed by one more is that one applied to
    the server built from the sequence.  Of two options setting the same
    field the later one decides: the port, the CORS policy and the TLS
    policy are those of the last option given, and the port also that of the
    last option setting it when the options after it leave the port alone.
    The TLS policy option after the bare TLS option replaces the default
    policy and TLS stays enabled. *)
Theorem C8_options_apply_in_order
    (c : Context) (nm : string) (opts mid : list Option) (o : Option)
    (p1 p2 : Z) (cs1 cs2 : cors.Cors) (conf1 conf : tls.Config) :
  New c nm (opts ++ [o]) = o (New c nm opts)
  /\ port (New c nm (opts ++ Port p1 :: mid ++ [Port p2])) = p2
  /\ cors (New c nm (opts ++ CustomCors cs1 :: mid ++ [CustomCors cs2])) = cs2
  /\ tlsconfig (New c nm (opts ++ TLSConfig conf1 :: mid ++ [TLSConfig conf]))
     = conf
  /\ (forall post,
        Forall (fun o' : Option => forall s, port (o' s) = port s) post ->
        port (New c nm (opts ++ Port p1 :: mid ++ Port p2 :: post)) = p2)
  /\ tlsconfig (New c nm (opts ++ TLS :: mid ++ [TLSConfig conf])) = conf
  /\ tls (New c nm (opts ++ TLS :: mid ++ [TLSConfig conf])) = true
  /\ tlsconfig (New c nm [TLS]) = defaultTLSConfig
  /\ tls (New c nm [TLS]) = true
  /\ tlsconfig (New c nm [TLS; TLSConfig conf]) = conf
  /\ tls (New c nm [TLS; TLSConfig conf]) = true
  /\ tls (New c nm []) = false.
Proof.
  split; [apply New_snoc|].
  split; [rewrite New_last; reflexivity|].
  split; [rewrite New_last; reflexivity|].
  split; [rewrite New_last; reflexivity|].
  split.
  { intros post Hpost.
    replace (opts ++ Port p1 :: mid ++ Port p2 :: post)%list
      with ((opts ++ Port p1 :: mid ++ [Port p2]) ++ post)%list
      by (rewrite <- !app_assoc; cbn; rewrite <- app_assoc; reflexivity).
    unfold New. rewrite fold_left_app.
    rewrite (fold_options_keep port post _ Hpost).
    change (port (New c nm (opts ++ Port p1 :: mid ++ [Port p2])) = p2).
    rewrite New_last. reflexivity. }
  split; [rewrite New_last; reflexivity|].
  split; [rewrite New_last; reflexivity|].
  repeat split.
Qed.

(** C7.  With port 0 the first thing [Serve] asks for is a free port.  If
    one is found, it becomes the server's port and the listener is started
    on it; if none is found, [Serve] asks for nothing else, prints nothing,
    and returns a structured error with the server-error code and kind HTTP
    around the failure.  With any other port [Serve] never asks for a free
    port and listens on the configured one. *)
Theorem C7_free_port_only_when_unset (s : Server) :
  (port s = 0 ->
     match GetFreePort with
     | inl free =>
         let s' := setPort free s in
         sys (Serve s)
         = [SysGetFreePort;
            if tls s
            then SysListenAndServeTLS (httpServer s') "server.crt" "server.key"
            else SysListenAndServe (httpServer s')]
         /\ http.Addr (httpServer s') = ":" +:+ pretty free
         /\ server (Serve s) = s'
     | inr why =>
         sys (Serve s) = [SysGetFreePort]
         /\ printed (Serve s) = []
         /\ server (Serve s) = s
         /\ exists e,
              returned (Serve s) = Structured e
              /\ errors.Code e = errors.CodeServerError
              /\ errors.EKind e = errors.HTTP
              /\ errors.Err e = Some (ErrOpaque why)
     end)
  /\ (port s <> 0 ->
      ~ In SysGetFreePort (sys (Serve s))
      /\ sys (Serve s)
         = [if tls s
            then SysListenAndServeTLS (httpServer s) "server.crt" "server.key"
            else SysListenAndServe (httpServer s)]
      /\ http.Addr (httpServer s) = ":" +:+ pretty (port s)
      /\ server (Serve s) = s).
Proof.
  split.
  - intros Hp. unfold Serve. rewrite Hp. cbn [Z.eqb].
    destruct GetFreePort as [free|why].
    + unfold listen. cbn [tls setPort].
      destruct (tls s); cbn; repeat split.
    + cbn. repeat split. eexists. repeat split.
  - intros Hp. unfold Serve.
    destruct (Z.eqb_spec (port s) 0) as [Hz|_]; [contradiction|].
    unfold listen. destruct (tls s); cbn; repeat split; auto.
    all: intros [Hin|[]]; discriminate.
Qed.

End Properties.

(** * The properties at work in the concrete world *)

(** The README's handlers: 200 and the value, 400 and the error, 200 and
    null. *)
Example README_Users :
  calls (snd (responseHandler (W := Demo.good) Demo.Users Demo.req Demo.st0))
  = [SetHeader "Content-Type" "application/json";
     WriteHeader 200;
     WriteBody (render (W := Demo.good)
                  (JObj [("id", JNum 1); ("name", JStr "Hunter")]) +:+ newline)].
Proof. vm_compute. reflexivity. Qed.

Example README_DeleteUser :
  calls (snd (responseHandler (W := Demo.good) Demo.DeleteUser Demo.req Demo.st0))
  = [SetHeader "Content-Type" "application/json";
     WriteHeader 200;
     WriteBody ("null" +:+ newline)].
Proof. vm_compute. reflexivity. Qed.

Example README_SaveUser :
  exists body,
    calls (snd (responseHandler (W := Demo.good) Demo.SaveUser Demo.req Demo.st0))
    = [SetHeader "Content-Type" "application/json";
       WriteHeader 400;
       WriteBody (render (W := Demo.good) body +:+ newline)]
    /\ jsonField "code" body = Some (JNum 400)
    /\ jsonField "kind" body = Some (JNum 1)
    /\ jsonField "err" body = Some (JStr "Invalid User ID").
Proof.
  exists (marshalError (W := Demo.good) ∅
            (errors.E errors.CodeBadRequest errors.Invalid
               (ErrOpaque "Invalid User ID") [])).
  vm_compute. repeat split.
Qed.

(** C1, as stated, at a handler whose error has code 42: the writer refuses
    the code, the adapter panics in the state the handler left, and neither a
    status nor a body has been written. *)
Lemma C1_counterexample :
  let st1 := snd (Cases.BadCode Demo.req (withContentType Demo.st0)) in
  Cases.BadCode Demo.req (withContentType Demo.st0)
  = (Done (INil, Some (ErrPtr 1%positive)), st1)
  /\ heap st1 !! 1%positive
     = Some (errors.mkError 42 "answer" errors.Other None [])
  /\ responseHandler (W := Demo.good) Cases.BadCode Demo.req Demo.st0
     = (Panicked, st1)
  /\ calls st1 = [SetHeader "Content-Type" "application/json"]
  /\ ~ (exists st2 tail,
          responseHandler (W := Demo.good) Cases.BadCode Demo.req Demo.st0
          = (Done tt, st2)
          /\ calls st2 = (calls st1 ++ WriteHeader 42 :: tail)%list).
Proof.
  vm_compute. repeat split.
  intros (st2 & tail & Hrun & _). discriminate.
Qed.

(** C1 as amended, at the README's SaveUser: the error has code 400. *)
Lemma C1_witness :
  let st1 := snd (Demo.SaveUser Demo.req (withContentType Demo.st0)) in
  let e := errors.E errors.CodeBadRequest errors.Invalid
             (ErrOpaque "Invalid User ID") [] in
  Demo.SaveUser Demo.req (withContentType Demo.st0)
  = (Done (INil, Some (ErrPtr 1%positive)), st1)
  /\ heap st1 !! 1%positive = Some e
  /\ (errors.Code e = 0 \/ 100 <= errors.Code e <= 999)
  /\ exists st2 tail,
       responseHandler (W := Demo.good) Demo.SaveUser Demo.req Demo.st0
       = (Done tt, st2)
       /\ heap st2 !! 1%positive = Some e
       /\ calls st2
          = (calls st1 ++ WriteHeader 400
               :: WriteBody (render (W := Demo.good)
                               (marshalError (W := Demo.good)
                                  (<[1%positive := e]> (heap st1)) e)
                             +:+ newline)
               :: tail)%list.
Proof.
  intros st1 e.
  assert (Demo.SaveUser Demo.req (withContentType Demo.st0)
          = (Done (INil, Some (ErrPtr 1%positive)), st1)) as Hfn
    by (vm_compute; reflexivity).
  assert (heap st1 !! 1%positive = Some e) as Hl by (vm_compute; reflexivity).
  assert (errors.Code e = 0 \/ 100 <= errors.Code e <= 999) as Hr
    by (right; vm_compute; split; discriminate).
  split; [exact Hfn|]. split; [exact Hl|]. split; [exact Hr|].
  destruct (C1_valid_code_is_status_and_body (W := Demo.good)
              Demo.SaveUser Demo.req Demo.st0 st1 INil 1%positive e Hfn Hl Hr)
    as (st2 & tail & Hrun & _ & Hl2 & Hc & _).
  exists st2, tail. split; [exact Hrun|]. split; [exact Hl2|]. exact Hc.
Defined.

(** C9 at a handler whose error has no code. *)
Lemma C9_witness :
  let st1 := snd (Demo.NoCode Demo.req (withContentType Demo.st0)) in
  let e := errors.mkError 0 "lookup" errors.IO None [] in
  Demo.NoCode Demo.req (withContentType Demo.st0)
  = (Done (INil, Some (ErrPtr 1%positive)), st1)
  /\ heap st1 !! 1%positive = Some e
  /\ errors.Code e = 0
  /\ exists st2 tail,
       responseHandler (W := Demo.good) Demo.NoCode Demo.req Demo.st0
       = (Done tt, st2)
       /\ heap st2 !! 1%positive = Some (errors.mkError 500 "lookup" errors.IO None [])
       /\ calls st2
          = (calls st1 ++ WriteHeader 500
               :: WriteBody (render (W := Demo.good)
                               (marshalError (W := Demo.good)
                                  (<[1%positive := errors.setCode 500 e]> (heap st1))
                                  (errors.setCode 500 e))
                             +:+ newline)
               :: tail)%list.
Proof.
  intros st1 e.
  assert (Demo.NoCode Demo.req (withContentType Demo.st0)
          = (Done (INil, Some (ErrPtr 1%positive)), st1)) as Hfn
    by (vm_compute; reflexivity).
  assert (heap st1 !! 1%positive = Some e) as Hl by (vm_compute; reflexivity).
  split; [exact Hfn|]. split; [exact Hl|]. split; [reflexivity|].
  destruct (C9_zero_code_is_overwritten_in_place (W := Demo.good)
              Demo.NoCode Demo.req Demo.st0 st1 INil 1%positive e Hfn Hl eq_refl)
    as (st2 & tail & Hrun & Hl2 & _ & _ & Hc & _).
  exists st2, tail. split; [exact Hrun|]. split; [exact Hl2|]. exact Hc.
Defined.

(** C4 at a handler failing with a database error, on a broken connection. *)
Lemma C4_witness :
  let st1 := withContentType Demo.st0 in
  Demo.Opaque Demo.req (withContentType Demo.st0)
  = (Done (INil, Some (ErrOpaque "sql: no rows in result set")), st1)
  /\ exists st2 tail,
       responseHandler (W := Demo.brokenPipe) Demo.Opaque Demo.req Demo.st0
       = (Done tt, st2)
       /\ heap st2 !! fresh (dom (heap st1))
          = Some (errors.mkError 500 EmptyString errors.Invalid
                    (Some (ErrOpaque "sql: no rows in result set")) [])
       /\ (tail = [] \/ tail = [WriteHeader 500]).
Proof.
  intros st1.
  assert (Demo.Opaque Demo.req (withContentType Demo.st0)
          = (Done (INil, Some (ErrOpaque "sql: no rows in result set")), st1))
    as Hfn by reflexivity.
  split; [exact Hfn|].
  destruct (C4_opaque_error_is_wrapped (W := Demo.brokenPipe)
              Demo.Opaque Demo.req Demo.st0 st1 INil _ Hfn)
    as (st2 & tail & Hrun & _ & Hl2 & _ & _ & _ & _ & _ & _ & _ & Ht).
  exists st2, tail. split; [exact Hrun|]. split; [exact Hl2|]. exact Ht.
Defined.

(** C5 at the README's DeleteUser, which returns nil and no error. *)
Lemma C5_witness :
  let st1 := withContentType Demo.st0 in
  Demo.DeleteUser Demo.req (withContentType Demo.st0) = (Done (INil, None), st1)
  /\ exists st2 tail,
       responseHandler (W := Demo.good) Demo.DeleteUser Demo.req Demo.st0
       = (Done tt, st2)
       /\ calls st2
          = (calls st1 ++ WriteHeader 200 :: WriteBody ("null" +:+ newline) :: tail)%list.
Proof.
  intros st1.
  assert (Demo.DeleteUser Demo.req (withContentType Demo.st0)
          = (Done (INil, None), st1)) as Hfn by reflexivity.
  split; [exact Hfn|].
  destruct (C5_success_status_and_body (W := Demo.good)
              Demo.DeleteUser Demo.req Demo.st0 st1 INil Hfn)
    as (st2 & rest & Hrun & Hc & _ & Hnil).
  destruct (Hnil eq_refl) as (_ & _ & tail & Hrest & _).
  exists st2, tail. split; [exact Hrun|]. rewrite Hc, Hrest. reflexivity.
Defined.

(** C3, as stated, at a handler returning a channel: the value does not
    serialize, and the adapter calls [WriteHeader] twice, 200 and then 500.
    On a broken connection it calls [WriteHeader 500] after the body. *)
Lemma C3_counterexample :
  let out := responseHandler (W := Demo.good) Demo.Channel Demo.req Demo.st0 in
  let out' := responseHandler (W := Demo.brokenPipe) Demo.DeleteUser Demo.req Demo.st0 in
  fst out = Done tt
  /\ calls (snd out)
     = [SetHeader "Content-Type" "application/json";
        WriteHeader 200; WriteHeader 500]
  /\ statusWrites (calls (snd out)) = 2%nat
  /\ statusWrites (calls (snd out)) <> 1%nat
  /\ calls (snd out')
     = [SetHeader "Content-Type" "application/json";
        WriteHeader 200; WriteBody ("null" +:+ newline); WriteHeader 500]
  /\ statusWrites (calls (snd out')) <> 1%nat.
Proof.
  vm_compute. repeat split; discriminate.
Qed.

(** C3 as amended, at the same handler. *)
Lemma C3_witness :
  let st2 := snd (responseHandler (W := Demo.good) Demo.Channel Demo.req Demo.st0) in
  responseHandler (W := Demo.good) Demo.Channel Demo.req Demo.st0 = (Done tt, st2)
  /\ exists res st1 data st status,
       Demo.Channel Demo.req (withContentType Demo.st0) = (Done res, st1)
       /\ classify (W := Demo.good) (fst res) (snd res) st1 = (Done data, st)
       /\ calls st = (calls st1 ++ [WriteHeader status])%list
       /\ logs st = logs st1.
Proof.
  intros st2.
  assert (responseHandler (W := Demo.good) Demo.Channel Demo.req Demo.st0
          = (Done tt, st2)) as Hrun by (vm_compute; reflexivity).
  split; [exact Hrun|].
  destruct (C3_status_writes_of_the_adapter (W := Demo.good)
              Demo.Channel Demo.req Demo.st0 st2 Hrun)
    as (res & st1 & data & st & status & Hfn & Hcl & Hc & Hl & _).
  exists res, st1, data, st, status. auto.
Defined.

(** C2, as stated, at a path with two leading slashes: it is registered with
    both. *)
Lemma C2_counterexample :
  map mux.regPath
    (mux.registered
       (mux (fst (AddRoutes (W := Demo.good) Demo.api
                    [Get "users" (Some Demo.Users); Get "/users" (Some Demo.Users);
                     Get "//users" (Some Demo.Users)] []))))
  = ["/users"; "/users"; "//users"]
  /\ normalizePath "//users" = "//users"
  /\ leadingSlashes (normalizePath "//users") = 2%nat
  /\ normalizePath "//users" <> normalizePath "/users".
Proof.
  vm_compute. repeat split. discriminate.
Qed.

(** C7 where no port is configured and none is free. *)
Lemma C7_witness :
  port Demo.api = 0
  /\ sys (Serve (W := Demo.noPort) Demo.api) = [SysGetFreePort]
  /\ exists e,
       returned (Serve (W := Demo.noPort) Demo.api) = Structured e
       /\ errors.Code e = 500
       /\ errors.EKind e = errors.HTTP.
Proof.
  split; [reflexivity|].
  destruct (C7_free_port_only_when_unset (W := Demo.noPort) Demo.api)
    as [Hzero _].
  destruct (Hzero eq_refl) as (Hsys & _ & _ & e & Hret & Hcode & Hkind & _).
  split; [exact Hsys|]. exists e. auto.
Defined.

(** A refused registration between two accepted ones: all three are made, one
    entry is logged. *)
Example AddRoutes_goes_on_after_a_refusal :
  let out := AddRoutes (W := Demo.good) Demo.api
               [Get "/users" (Some Demo.Users);
                Delete "/user/{id" (Some Demo.DeleteUser);
                Post "user" (Some Demo.SaveUser)] [] in
  map (fun reg => (mux.regMethod reg, mux.regPath reg, mux.regErr reg))
    (mux.registered (mux (fst out)))
  = [("GET", "/users", None);
     ("DELETE", "/user/{id", Some "mux: unbalanced braces");
     ("POST", "/user", None)]
  /\ snd out
     = [LogError (errors.mkError 422 EmptyString errors.Invalid
                    (Some (ErrOpaque "mux: unbalanced braces")) [])].
Proof. vm_compute. split; reflexivity. Qed.

(** * Further properties of the adapter *)

Section AdapterProperties.
Context {W : World}.

Lemma accepts_statusOf (e : Error) (cs : list WCall) :
  accepts cs (WriteHeader (statusOf e)) = true
  <-> errors.Code e = 0 \/ 100 <= errors.Code e <= 999 \/ wroteHeader cs = true.
Proof.
  unfold accepts, statusOf.
  destruct (Z.eqb_spec (errors.Code e) 0) as [Hz|Hnz].
  - split; [auto|reflexivity].
  - rewrite orb_true_iff, validStatus_range. tauto.
Qed.

(** [classify] returns exactly when its error is not a nil pointer and the
    writer takes the status. *)
Lemma classify_returns (d : iface) (err : option GoError) (st1 : State) :
  (exists data st, classify d err st1 = (Done data, st))
  <-> forall l, err = Some (ErrPtr l) ->
        exists e, heap st1 !! l = Some e
                  /\ accepts (calls st1) (WriteHeader (statusOf e)) = true.
Proof.
  destruct err as [[l|msg]|].
  - destruct (heap st1 !! l) as [e|] eqn:Hl.
    + destruct (accepts (calls st1) (WriteHeader (statusOf e))) eqn:Hok.
      * rewrite (classify_typed d l e st1 Hl Hok). split; [|eauto].
        intros _ l' Heq. inversion Heq; subst l'. eauto.
      * rewrite (classify_refused d l e st1 Hl Hok). split.
        -- intros (data & st & Hc). discriminate.
        -- intros Hall. destruct (Hall l eq_refl) as (e' & He' & Hok').
           congruence.
    + rewrite (classify_nil d l st1 Hl). split.
      * intros (data & st & Hc). discriminate.
      * intros Hall. destruct (Hall l eq_refl) as (e' & He' & _). congruence.
  - rewrite classify_opaque. split; [|eauto]. intros _ l Heq. discriminate.
  - rewrite classify_no_error. split; [|eauto]. intros _ l Heq. discriminate.
Qed.

(** The adapter returns exactly when the handler returns and its error, if
    it is a [*errors.Error], is not nil and has a code the writer takes: zero,
    a status code from 100 to 999, or any code once the handler has written
    the header itself.  On a nil pointer the adapter panics at gomux.go:235,
    and on a code the writer refuses at gomux.go:238, both in the state the
    handler left: no status has been written, no body, and nothing is
    logged. *)
Theorem responseHandler_returns_iff
    (fn : ServiceHandler) (r : http.Request) (st0 : State) :
  ((exists st2, responseHandler fn r st0 = (Done tt, st2))
   <-> exists res st1,
         fn r (withContentType st0) = (Done res, st1)
         /\ forall l, snd res = Some (ErrPtr l) ->
              exists e,
                heap st1 !! l = Some e
                /\ (errors.Code e = 0
                    \/ 100 <= errors.Code e <= 999
                    \/ wroteHeader (calls st1) = true))
  /\ (forall data l st1,
        fn r (withContentType st0) = (Done (data, Some (ErrPtr l)), st1) ->
        heap st1 !! l = None ->
        responseHandler fn r st0 = (Panicked, st1))
  /\ (forall data l e st1,
        fn r (withContentType st0) = (Done (data, Some (ErrPtr l)), st1) ->
        heap st1 !! l = Some e ->
        errors.Code e <> 0 ->
        ~ 100 <= errors.Code e <= 999 ->
        wroteHeader (calls st1) = false ->
        responseHandler fn r st0 = (Panicked, st1)).
Proof.
  split; [|split].
  - rewrite responseHandler_unfold.
    destruct (fn r (withContentType st0)) as [[res|] st1] eqn:Hfn.
    + pose proof (classify_returns (fst res) (snd res) st1) as Hret.
      destruct (classify (fst res) (snd res) st1) as [[data|] st] eqn:Hcl.
      * split.
        -- intros _. exists res, st1. split; [reflexivity|].
           intros l Hl.
           destruct (proj1 Hret (ex_intro _ data (ex_intro _ st eq_refl)) l Hl)
             as (e & He & Hok).
           exists e. split; [exact He|]. apply accepts_statusOf, Hok.
        -- intros _. destruct (respond_run r data st) as (st2 & Hrun & _).
           eauto.
      * split; [intros [st2 Hd]; discriminate|].
        intros (res' & st1' & Heq & Hok). inversion Heq; subst res' st1'.
        destruct (proj2 Hret) as (data & st' & Habs); [|discriminate].
        intros l Hl. destruct (Hok l Hl) as (e & He & Hacc).
        exists e. split; [exact He|]. apply accepts_statusOf, Hacc.
    + split; [intros [st2 Hd]; discriminate|].
      intros (res' & st1' & Heq & _). discriminate.
  - intros data l st1 Hfn Hl.
    rewrite responseHandler_unfold, Hfn. cbn [fst snd].
    rewrite (classify_nil _ _ _ Hl). reflexivity.
  - intros data l e st1 Hfn Hl Hnz Hrange Hw.
    rewrite responseHandler_unfold, Hfn. cbn [fst snd].
    rewrite (classify_refused _ l e st1 Hl); [reflexivity|].
    destruct (accepts (calls st1) (WriteHeader (statusOf e))) eqn:Hok;
      [|reflexivity].
    apply accepts_statusOf in Hok. destruct Hok as [Hz|[Hr|Hw']]; congruence.
Qed.

(** The value a handler returns beside an error is never looked at: two
    handlers that return the same error in the same state get the same
    response, whatever values they return with it. *)
Theorem responseHandler_drops_data_on_error
    (fn fn' : ServiceHandler) (r : http.Request) (st0 st1 : State)
    (d d' : iface) (err : GoError) :
  fn r (withContentType st0) = (Done (d, Some err), st1) ->
  fn' r (withContentType st0) = (Done (d', Some err), st1) ->
  responseHandler fn r st0 = responseHandler fn' r st0.
Proof.
  intros Hfn Hfn'. rewrite !responseHandler_unfold, Hfn, Hfn'.
  destruct err; reflexivity.
Qed.

(** An error object returned as the result, with a nil error, is answered
    with status 200 and the error's JSON form as the body; the zero code of
    such an object is left as it is. *)
Theorem responseHandler_error_as_result
    (fn : ServiceHandler) (r : http.Request) (st0 st1 : State)
    (l : loc) (e : Error) :
  fn r (withContentType st0) = (Done (IErrorPtr l, None), st1) ->
  heap st1 !! l = Some e ->
  exists st2 tail,
    responseHandler fn r st0 = (Done tt, st2)
    /\ heap st2 !! l = Some e
    /\ errorShaped (marshalError (heap st1) e) = true
    /\ calls st2 =
         (calls st1
            ++ WriteHeader 200
            :: WriteBody (render (marshalError (heap st1) e) +:+ newline)
            :: tail)%list
    /\ (tail = [] \/ tail = [WriteHeader 500]).
Proof.
  intros Hfn Hl.
  rewrite responseHandler_unfold, Hfn. cbn [fst snd].
  rewrite classify_no_error.
  set (st := mkState _ _ _).
  destruct (respond_error r l e st Hl) as (st2 & tail & Hrun & Hl2 & Hc & Ht).
  exists st2, tail. repeat split; auto.
  rewrite Hc. subst st. cbn [calls heap]. rewrite <- app_assoc. reflexivity.
Qed.

(** [classify] leaves every object alone but the error it was given. *)
Lemma classify_frame (d : iface) (err : option GoError) (st1 st : State)
    (data : iface) (l' : loc) (x : Error) :
  classify d err st1 = (Done data, st) ->
  heap st1 !! l' = Some x ->
  err <> Some (ErrPtr l') ->
  heap st !! l' = Some x.
Proof.
  intros Hc Hx Hne. destruct err as [[l|msg]|].
  - destruct (heap st1 !! l) as [e|] eqn:Hl.
    + destruct (accepts (calls st1) (WriteHeader (statusOf e))) eqn:Hok.
      * rewrite (classify_typed d l e st1 Hl Hok) in Hc.
        inversion Hc; subst; cbn.
        rewrite lookup_insert_ne; [exact Hx|].
        intros ->. apply Hne. reflexivity.
      * rewrite (classify_refused d l e st1 Hl Hok) in Hc. discriminate.
    + rewrite (classify_nil _ _ _ Hl) in Hc. discriminate.
  - rewrite classify_opaque in Hc. inversion Hc; subst; cbn.
    eapply lookup_weaken; [exact Hx|]. apply alloc_grows.
  - rewrite classify_no_error in Hc. inversion Hc; subst. exact Hx.
Qed.

(** The adapter writes to one object of the store at most, the error the
    handler returned: every other object the handler left there is unchanged
    when the adapter returns. *)
Theorem responseHandler_keeps_other_objects
    (fn : ServiceHandler) (r : http.Request) (st0 st1 st2 : State)
    (res : iface * option GoError) (l' : loc) (x : Error) :
  fn r (withContentType st0) = (Done res, st1) ->
  responseHandler fn r st0 = (Done tt, st2) ->
  heap st1 !! l' = Some x ->
  snd res <> Some (ErrPtr l') ->
  heap st2 !! l' = Some x.
Proof.
  intros Hfn Hrun Hx Hne. rewrite responseHandler_unfold, Hfn in Hrun.
  destruct (classify (fst res) (snd res) st1) as [[data|] st] eqn:Hcl;
    [|discriminate].
  pose proof (classify_frame _ _ _ _ _ _ _ Hcl Hx Hne) as Hst.
  destruct (respond_run r data st) as (st2' & Hrun' & Hsub & _).
  rewrite Hrun in Hrun'. inversion Hrun'; subst st2'.
  eapply lookup_weaken; eassumption.
Qed.

End AdapterProperties.

(** * Properties of writeContent and of what the adapter logs *)

Section WriteContentProperties.
Context {W : World}.

Lemma bodyWrites_app (a b : list WCall) :
  bodyWrites (a ++ b) = (bodyWrites a + bodyWrites b)%nat.
Proof.
  induction a as [|c a IH]; [reflexivity|].
  destruct c; cbn; rewrite IH; reflexivity.
Qed.

(** [writeContent] always returns and never logs.  It returns an error
    exactly when it has called [WriteHeader] once more, and nil exactly when
    the data serialized and the transport took the bytes; it attempts one body
    write when the data serialized and none otherwise; on success the store
    is as it was. *)
Theorem writeContent_error_iff_status_write
    (r : http.Request) (data : iface) (st : State) :
  exists werr st2,
    writeContent r data st = (Done werr, st2)
    /\ logs st2 = logs st
    /\ heap st ⊆ heap st2
    /\ statusWrites (calls st2)
       = (statusWrites (calls st)
          + match werr with Some _ => 1 | None => 0 end)%nat
    /\ bodyWrites (calls st2)
       = (bodyWrites (calls st)
          + match Encode (heap st) data with inl _ => 1 | inr _ => 0 end)%nat
    /\ (werr = None
        <-> exists buf, Encode (heap st) data = inl buf
                        /\ transport (calls st) buf = None)
    /\ (werr = None -> heap st2 = heap st).
Proof.
  rewrite writeContent_run.
  destruct (Encode (heap st) data) as [buf|why].
  - destruct (transport (calls st) buf) as [why|] eqn:Ht.
    + eexists _, _. split; [reflexivity|]. cbn [logs heap calls].
      rewrite statusWrites_app, bodyWrites_app. cbn.
      repeat split; auto using alloc_grows; try discriminate.
      intros (buf' & Hb & Ht'). inversion Hb; subst. congruence.
    + eexists _, _. split; [reflexivity|]. cbn [logs heap calls].
      rewrite statusWrites_app, bodyWrites_app. cbn.
      repeat split; auto; try lia. eauto.
  - eexists _, _. split; [reflexivity|]. cbn [logs heap calls].
    rewrite statusWrites_app, bodyWrites_app. cbn.
    repeat split; auto using alloc_grows; try discriminate; try lia.
    intros (buf' & Hb & _). discriminate.
Qed.

(** The error [writeContent] returns is a pointer to an object the store did
    not hold before, with the server-error code; its kind tells the cause:
    Encoding around the encoder's refusal, IO around the transport's failure.
    Nothing else is added to the store. *)
Theorem writeContent_error_object
    (r : http.Request) (data : iface) (st st2 : State) (err : GoError) :
  writeContent r data st = (Done (Some err), st2) ->
  exists l inner,
    err = ErrPtr l
    /\ heap st !! l = None
    /\ heap st2 = <[l := inner]> (heap st)
    /\ errors.Code inner = errors.CodeServerError
    /\ ((errors.EKind inner = errors.Encoding
         /\ exists why, Encode (heap st) data = inr why
                        /\ errors.Err inner = Some (ErrOpaque why))
        \/ (errors.EKind inner = errors.IO
            /\ exists buf why,
                 Encode (heap st) data = inl buf
                 /\ transport (calls st) buf = Some why
                 /\ errors.Err inner = Some (ErrOpaque why))).
Proof.
  rewrite writeContent_run. intros Hrun.
  destruct (Encode (heap st) data) as [buf|why].
  - destruct (transport (calls st) buf) as [why|] eqn:Ht; [|discriminate].
    inversion Hrun; subst. eexists _, _. split; [reflexivity|].
    split; [apply fresh_lookup|]. split; [reflexivity|].
    split; [reflexivity|]. right. split; [reflexivity|]. eauto.
  - inversion Hrun; subst. eexists _, _. split; [reflexivity|].
    split; [apply fresh_lookup|]. split; [reflexivity|].
    split; [reflexivity|]. left. split; [reflexivity|]. eauto.
Qed.

(** What [respond] logs, with its content. *)
Lemma respond_log (r : http.Request) (data : iface) (st st2 : State) :
  respond r data st = (Done tt, st2) ->
  (logs st2 = logs st
   /\ exists buf, last (calls st2) = Some (WriteBody buf))
  \/ (exists l inner,
        logs st2
        = (logs st ++ [LogError (errors.E http.StatusUnprocessableEntity
                                   errors.Invalid (ErrPtr l) (stackAt 249))])%list
        /\ heap st !! l = None
        /\ heap st2 !! l = Some inner
        /\ errors.Code inner = 500
        /\ (errors.EKind inner = errors.Encoding
            \/ errors.EKind inner = errors.IO)
        /\ last (calls st2) = Some (WriteHeader 500)).
Proof.
  unfold respond, bind. rewrite writeContent_run. intros Hrun.
  destruct (Encode (heap st) data) as [buf|why].
  - destruct (transport (calls st) buf) as [why|].
    + right. cbn in Hrun. inversion Hrun; subst; cbn [logs heap calls].
      eexists _, _. split; [reflexivity|]. split; [apply fresh_lookup|].
      split; [apply lookup_insert_eq|]. split; [reflexivity|].
      split; [right; reflexivity|].
      replace (calls st ++ [WriteBody buf; WriteHeader http.StatusInternalServerError])%list
        with ((calls st ++ [WriteBody buf])
                ++ [WriteHeader http.StatusInternalServerError])%list
        by (rewrite <- app_assoc; reflexivity).
      apply last_snoc.
    + left. cbn in Hrun. inversion Hrun; subst; cbn [logs heap calls].
      split; [reflexivity|]. exists buf. apply last_snoc.
  - right. cbn in Hrun. inversion Hrun; subst; cbn [logs heap calls].
    eexists _, _. split; [reflexivity|]. split; [apply fresh_lookup|].
    split; [apply lookup_insert_eq|]. split; [reflexivity|].
    split; [left; reflexivity|]. apply last_snoc.
Qed.

(** The adapter logs at most one entry after the handler has returned, and
    it logs one exactly when its last call on the writer is the second
    [WriteHeader 500] rather than the body write.  The entry is a structured
    error of kind Invalid with code 422 around a new error object of code 500
    whose kind is Encoding or IO. *)
Theorem responseHandler_log_entry
    (fn : ServiceHandler) (r : http.Request) (st0 st2 : State) :
  responseHandler fn r st0 = (Done tt, st2) ->
  exists res st1,
    fn r (withContentType st0) = (Done res, st1)
    /\ ((logs st2 = logs st1
         /\ exists buf, last (calls st2) = Some (WriteBody buf))
        \/ (exists l inner,
              logs st2
              = (logs st1
                   ++ [LogError (errors.E 422 errors.Invalid (ErrPtr l)
                                   (stackAt 249))])%list
              /\ heap st2 !! l = Some inner
              /\ errors.Code inner = 500
              /\ (errors.EKind inner = errors.Encoding
                  \/ errors.EKind inner = errors.IO)
              /\ last (calls st2) = Some (WriteHeader 500))).
Proof.
  intros Hrun. rewrite responseHandler_unfold in Hrun.
  destruct (fn r (withContentType st0)) as [[res|] st1] eqn:Hfn;
    [|discriminate].
  destruct (classify (fst res) (snd res) st1) as [[data|] st] eqn:Hcl;
    [|discriminate].
  destruct (classify_calls _ _ _ _ _ Hcl) as (status & _ & Hlogs).
  exists res, st1. split; [reflexivity|].
  destruct (respond_log r data st st2 Hrun)
    as [[Hl Hlast]|(l & inner & Hl & _ & Hh & Hcode & Hkind & Hlast)].
  - left. split; [congruence|exact Hlast].
  - right. exists l, inner. rewrite Hl, Hlogs. auto.
Qed.

(** The status the adapter writes after the handler has returned is never 0,
    and it is 200 whenever the handler returned no error: a status other than
    200 is only written for an error. *)
Theorem responseHandler_status_never_zero
    (fn : ServiceHandler) (r : http.Request) (st0 st2 : State) :
  responseHandler fn r st0 = (Done tt, st2) ->
  exists res st1 status rest,
    fn r (withContentType st0) = (Done res, st1)
    /\ calls st2 = (calls st1 ++ WriteHeader status :: rest)%list
    /\ status <> 0
    /\ (snd res = None -> status = 200)
    /\ (forall msg, snd res = Some (ErrOpaque msg) -> status = 500).
Proof.
  intros Hrun. rewrite responseHandler_unfold in Hrun.
  destruct (fn r (withContentType st0)) as [[res|] st1] eqn:Hfn;
    [|discriminate].
  destruct (classify (fst res) (snd res) st1) as [[data|] st] eqn:Hcl;
    [|discriminate].
  assert (exists status,
             calls st = (calls st1 ++ [WriteHeader status])%list
             /\ status <> 0
             /\ (snd res = None -> status = 200)
             /\ (forall msg, snd res = Some (ErrOpaque msg) -> status = 500))
    as (status & Hc & Hnz & Hok & Hop).
  { destruct (snd res) as [[l|msg]|].
    - destruct (heap st1 !! l) as [e|] eqn:Hl.
      + destruct (accepts (calls st1) (WriteHeader (statusOf e))) eqn:Hacc.
        * rewrite (classify_typed _ l e st1 Hl Hacc) in Hcl.
          inversion Hcl; subst; cbn [calls].
          eexists. split; [reflexivity|].
          split; [|split; [discriminate|intros msg Hm; discriminate]].
          unfold statusOf.
          destruct (Z.eqb_spec (errors.Code e) 0); [discriminate|assumption].
        * rewrite (classify_refused _ l e st1 Hl Hacc) in Hcl. discriminate.
      + rewrite (classify_nil _ _ _ Hl) in Hcl. discriminate.
    - rewrite classify_opaque in Hcl. inversion Hcl; subst; cbn [calls].
      eexists. split; [reflexivity|].
      split; [discriminate|]. split; [discriminate|reflexivity].
    - rewrite classify_no_error in Hcl. inversion Hcl; subst; cbn [calls].
      eexists. split; [reflexivity|].
      split; [discriminate|]. split; [reflexivity|intros msg Hm; discriminate]. }
  destruct (respond_run r data st) as (st2' & Hrun' & _ & Hcases).
  rewrite Hrun in Hrun'. inversion Hrun'; subst st2'.
  assert (exists rest, calls st2 = (calls st ++ rest)%list) as [rest Hrest].
  { destruct (Encode (heap st) data) as [buf|why];
      [destruct (transport _ _) as [why|]|];
      destruct Hcases as [Hc2 _]; eauto. }
  exists res, st1, status, rest. split; [reflexivity|].
  split; [|auto]. rewrite Hrest, Hc, <- app_assoc. reflexivity.
Qed.

End WriteContentProperties.

(** * Further properties of the route table builder *)

Section RouteProperties.
Context {W : World}.

(** A route a convenience constructor builds never carries both handler
    variants.  Built from a handler that is not nil it carries exactly one,
    and [AddRoutes] registers it under the constructor's method and the
    normalized path with a handler that is not nil: the adapter around the
    business handler, or the raw handler itself, unchanged.  Built from a nil
    handler it carries neither, and it is registered all the same, with a nil
    handler. *)
Theorem constructors_register_one_handler
    (s : Server) (lg : list LogEntry) (m p : string)
    (h : option ServiceHandler) (raw : option http.HandlerFunc) :
  Forall
    (fun entry : Route * string * option http.HandlerFunc =>
       let route := fst (fst entry) in
       (Handler route = None \/ HandlerFunc route = None)
       /\ (snd entry = None
           <-> Handler route = None /\ HandlerFunc route = None)
       /\ (h <> None -> raw <> None ->
           (Handler route = None <-> HandlerFunc route <> None)
           /\ snd entry <> None)
       /\ exists reg,
            mux.registered (mux (fst (AddRoutes s [route] lg)))
            = (mux.registered (mux s) ++ [reg])%list
            /\ mux.regMethod reg = snd (fst entry)
            /\ mux.regPath reg = normalizePath p
            /\ mux.regHandler reg = snd entry)
    (builtRoutes m p h raw).
Proof.
  assert (forall route method hf,
             chosenHandler route = hf -> Method route = method ->
             Path route = p ->
             exists reg,
               mux.registered (mux (fst (AddRoutes s [route] lg)))
               = (mux.registered (mux s) ++ [reg])%list
               /\ mux.regMethod reg = method
               /\ mux.regPath reg = normalizePath p
               /\ mux.regHandler reg = hf) as Hreg.
  { intros route method hf <- <- <-. eexists.
    unfold AddRoutes. cbn [fold_left]. rewrite addRoute_run.
    cbn [fst snd mux setMux mux.registered]. repeat split. }
  set (P := fun entry : Route * string * option http.HandlerFunc => _).
  assert (forall route method,
             Handler route = h -> HandlerFunc route = None ->
             Method route = method -> Path route = p ->
             P (route, method, option_map responseHandler h)) as Hadapted.
  { intros [rm rp rh rf] method Hh Hf Hm Hp. cbn in Hh, Hf, Hm, Hp. subst.
    unfold P. cbn [fst snd Handler HandlerFunc].
    split; [right; reflexivity|].
    split.
    { destruct h; cbn; split; try discriminate; auto.
      intros [Hx _]. discriminate. }
    split.
    { intros Hh _. destruct h as [h'|]; [|contradiction]. cbn.
      split; [|discriminate].
      split; [discriminate|]. intros Hx. exfalso. apply Hx. reflexivity. }
    apply Hreg; [destruct h|..]; reflexivity. }
  assert (forall route method,
             Handler route = None -> HandlerFunc route = raw ->
             Method route = method -> Path route = p ->
             P (route, method, raw)) as Hraw.
  { intros [rm rp rh rf] method Hh Hf Hm Hp. cbn in Hh, Hf, Hm, Hp. subst.
    unfold P. cbn [fst snd Handler HandlerFunc].
    split; [left; reflexivity|].
    split; [tauto|].
    split.
    { intros _ Hr. split; [|exact Hr]. tauto. }
    apply Hreg; reflexivity. }
  unfold builtRoutes.
  repeat (apply Forall_cons; split;
          [first [apply Hadapted; reflexivity|apply Hraw; reflexivity]|]).
  constructor.
Qed.

(** A route with neither handler set is not rejected: it is registered with a
    nil handler, and nothing is logged unless the router itself refuses the
    registration. *)
Theorem route_without_handler_is_registered
    (s : Server) (m p : string) (lg : list LogEntry) :
  let route := mkRoute m p None None in
  exists reg,
    mux.registered (mux (fst (AddRoutes s [route] lg)))
    = (mux.registered (mux s) ++ [reg])%list
    /\ mux.regHandler reg = None
    /\ mux.regErr reg = muxError (mux s) m (normalizePath p)
    /\ (muxError (mux s) m (normalizePath p) = None ->
        snd (AddRoutes s [route] lg) = lg).
Proof.
  intros route. eexists. unfold AddRoutes. cbn [fold_left].
  rewrite addRoute_run. cbn [fst snd mux setMux mux.registered].
  split; [reflexivity|]. split; [reflexivity|]. split; [reflexivity|].
  intros Hok. unfold registrationLog. cbn. rewrite Hok. apply app_nil_r.
Qed.

Lemma normalizePath_by_slashes (p : string) :
  normalizePath p = if Nat.eqb (leadingSlashes p) 0 then "/" +:+ p else p.
Proof.
  pose proof (normalizePath_cases p) as Hp.
  destruct p as [|a rest]; [exact Hp|].
  cbn [leadingSlashes]. destruct (Ascii.eqb a "/"%char); exact Hp.
Qed.

Lemma leadingSlashes_slash (q : string) :
  leadingSlashes ("/" +:+ q) = S (leadingSlashes q).
Proof. reflexivity. Qed.

(** Two paths are registered under the same path exactly when they are equal
    or one is the other with one slash put in front of a path that starts
    with none: the only collisions [AddRoutes] creates are of the kind of
    users and /users. *)
Theorem normalizePath_collisions (p q : string) :
  normalizePath p = normalizePath q
  <-> p = q
      \/ (p = "/" +:+ q /\ leadingSlashes q = O)
      \/ (q = "/" +:+ p /\ leadingSlashes p = O).
Proof.
  rewrite !normalizePath_by_slashes.
  destruct (Nat.eqb_spec (leadingSlashes p) 0) as [Hp|Hp];
    destruct (Nat.eqb_spec (leadingSlashes q) 0) as [Hq|Hq].
  - split.
    + intros Heq. left.
      change (String "/"%char p = String "/"%char q) in Heq. congruence.
    + intros [->|[[-> _]|[-> _]]]; try reflexivity.
      * rewrite leadingSlashes_slash in Hp. discriminate.
      * rewrite leadingSlashes_slash in Hq. discriminate.
  - split.
    + intros <-. right. right. split; [reflexivity|exact Hp].
    + intros [->|[[-> Hz]|[-> _]]]; try reflexivity; contradiction.
  - split.
    + intros ->. right. left. split; [reflexivity|exact Hq].
    + intros [->|[[-> _]|[-> Hz]]]; try reflexivity; contradiction.
  - split.
    + intros ->. left. reflexivity.
    + intros [->|[[_ Hz]|[_ Hz]]]; try reflexivity; contradiction.
Qed.

(** When the router accepts every registration a call of [AddRoutes] asks
    for, each on the server as the routes before it left it, the call logs
    nothing and every registration it made is free of error. *)
Lemma AddRoutes_accepted (routes : list Route) (s : Server) (lg : list LogEntry) :
  (forall before route after,
      routes = (before ++ route :: after)%list ->
      muxError (mux (fst (AddRoutes s before lg))) (Method route)
        (normalizePath (Path route)) = None) ->
  exists regs,
    AddRoutes s routes lg
    = (setMux (mux.mkRouter (mux.strictSlash (mux s)) (mux.pathPrefix (mux s))
                 (mux.registered (mux s) ++ regs)%list) s, lg)
    /\ length regs = length routes
    /\ Forall (fun reg => mux.regErr reg = None) regs.
Proof.
  induction routes as [|route init IH] using rev_ind; intros Hok.
  - exists []. unfold AddRoutes. cbn. rewrite app_nil_r.
    destruct s as [? ? []]. repeat split. constructor.
  - destruct IH as (regs & Hrun & Hlen & Hall).
    { intros before route' after Hsplit.
      apply (Hok before route' (after ++ [route])%list).
      rewrite Hsplit, <- app_assoc. reflexivity. }
    pose proof (Hok init route [] eq_refl) as Hlast.
    rewrite AddRoutes_snoc, Hlast, Hrun.
    cbn [fst snd mux setMux mux.strictSlash mux.pathPrefix mux.registered].
    exists (regs ++ [mux.mkRegistration (Method route)
                       (normalizePath (Path route)) (chosenHandler route) None])%list.
    rewrite app_nil_r, <- app_assoc. split; [reflexivity|].
    split; [rewrite !length_app; cbn; lia|].
    apply Forall_app. split; [exact Hall|]. repeat constructor.
Qed.

(** [AddRoutes] leaves the log as it found it exactly when the router
    accepted every registration of the call, each asked on the server as the
    routes before it left it; then every registration made, one per route,
    is free of error.  A single refusal, wherever it falls, makes the log
    longer. *)
Theorem AddRoutes_silent_when_router_accepts
    (s : Server) (routes : list Route) (lg : list LogEntry) :
  (snd (AddRoutes s routes lg) = lg
   <-> forall before route after,
         routes = (before ++ route :: after)%list ->
         muxError (mux (fst (AddRoutes s before lg))) (Method route)
           (normalizePath (Path route)) = None)
  /\ ((forall before route after,
          routes = (before ++ route :: after)%list ->
          muxError (mux (fst (AddRoutes s before lg))) (Method route)
            (normalizePath (Path route)) = None) ->
      exists regs,
        mux.registered (mux (fst (AddRoutes s routes lg)))
        = (mux.registered (mux s) ++ regs)%list
        /\ length regs = length routes
        /\ Forall (fun reg => mux.regErr reg = None) regs).
Proof.
  split; [split|].
  - intros Hlog before route after Hsplit.
    destruct (muxError (mux (fst (AddRoutes s before lg))) (Method route)
                (normalizePath (Path route))) as [why|] eqn:Herr;
      [exfalso|reflexivity].
    assert (AddRoutes s routes lg
            = AddRoutes (fst (AddRoutes s (before ++ [route]) lg)) after
                (snd (AddRoutes s (before ++ [route]) lg))) as Hrest.
    { rewrite Hsplit.
      replace (before ++ route :: after)%list
        with ((before ++ [route]) ++ after)%list
        by (rewrite <- app_assoc; reflexivity).
      apply AddRoutes_app. }
    destruct (AddRoutes_run after (fst (AddRoutes s (before ++ [route]) lg))
                (snd (AddRoutes s (before ++ [route]) lg)))
      as (regs_a & _ & Hrun_a).
    destruct (AddRoutes_run before s lg) as (regs_b & _ & Hrun_b).
    rewrite Hrest, Hrun_a in Hlog. cbn [snd] in Hlog.
    rewrite AddRoutes_snoc, Herr, Hrun_b in Hlog. cbn [snd] in Hlog.
    apply (f_equal (@length LogEntry)) in Hlog.
    rewrite !length_app in Hlog. cbn in Hlog. lia.
  - intros Hok. destruct (AddRoutes_accepted routes s lg Hok) as (regs & -> & _).
    reflexivity.
  - intros Hok.
    destruct (AddRoutes_accepted routes s lg Hok) as (regs & -> & Hlen & Hall).
    exists regs. auto.
Qed.

End RouteProperties.

(** * Further properties of the configuration and of the life cycle *)

Section ServerProperties.
Context {W : World}.

Lemma fold_builtin (bs : list BuiltinOption) (s : Server) :
  fold_left (fun s' (opt : Option) => opt s') (map optionOf bs) s
  = mkServer (name s) (ctx s) (mux s)
      (tls s || anyTLS bs)
      (lastPort (port s) bs)
      (lastTLSConfig (tlsconfig s) bs)
      (lastCors (cors s) bs).
Proof.
  revert s. induction bs as [|b bs IH]; intros s.
  - destruct s; cbn. rewrite orb_false_r. reflexivity.
  - cbn [map fold_left]. rewrite IH.
    destruct b; cbn; try reflexivity.
    all: rewrite ?orb_true_r; destruct (tls s); reflexivity.
Qed.

(** A server built from the provided options only is decided field by field:
    the name, the context and the router are those [New] starts from; TLS is
    on exactly when a TLS or TLS-policy option occurs; the port, the TLS
    policy and the CORS policy are those of the last option naming them, and
    0, the default policy and the default CORS policy when none does. *)
Theorem New_with_builtin_options
    (c : Context) (nm : string) (bs : list BuiltinOption) :
  New c nm (map optionOf bs)
  = mkServer nm c (mux.mkRouter true ("/" +:+ nm) [])
      (anyTLS bs)
      (lastPort 0 bs)
      (lastTLSConfig defaultTLSConfig bs)
      (lastCors defaultCors bs).
Proof. unfold New. rewrite fold_builtin. reflexivity. Qed.

(** Two provided options of different declarations can be given in either
    order, anywhere in the option list, with the same server as the result;
    this covers the TLS option and the TLS-policy option, which both turn TLS
    on. *)
Theorem builtin_options_commute
    (c : Context) (nm : string) (before after : list Option)
    (a b : BuiltinOption) :
  sameKind a b = false ->
  New c nm (before ++ optionOf a :: optionOf b :: after)
  = New c nm (before ++ optionOf b :: optionOf a :: after).
Proof.
  intros Hk. unfold New. rewrite !fold_left_app. cbn [fold_left].
  f_equal. destruct a, b; try discriminate; reflexivity.
Qed.

(** Giving a provided option twice in a row is giving it once. *)
Theorem builtin_options_idempotent
    (c : Context) (nm : string) (before after : list Option)
    (a : BuiltinOption) :
  New c nm (before ++ optionOf a :: optionOf a :: after)
  = New c nm (before ++ optionOf a :: after).
Proof.
  unfold New. rewrite !fold_left_app. cbn [fold_left].
  f_equal. destruct a; reflexivity.
Qed.

(** [Serve] returns its own structured error exactly when no port was
    configured and none could be acquired; then it prints nothing.  In every
    other case it prints one line naming the server and the port it listens
    on, its last request to the system is the one listener it starts, and the
    error it returns is the listener's. *)
Theorem Serve_fails_at_startup_iff (s : Server) :
  ((exists e, returned (Serve s) = Structured e)
   <-> port s = 0 /\ exists why, GetFreePort = inr why)
  /\ (printed (Serve s) = []
      <-> port s = 0 /\ exists why, GetFreePort = inr why)
  /\ ((forall e, returned (Serve s) <> Structured e) ->
      let s' := server (Serve s) in
      printed (Serve s)
      = [LogLine (newline +:+ name s +:+ " started on port "
                    +:+ pretty (port s') +:+ newline)]
      /\ returned (Serve s) = FromListener (listenError (httpServer s'))
      /\ last (sys (Serve s))
         = Some (if tls s
                 then SysListenAndServeTLS (httpServer s') "server.crt" "server.key"
                 else SysListenAndServe (httpServer s'))).
Proof.
  unfold Serve, listen.
  destruct (Z.eqb_spec (port s) 0) as [Hz|Hnz].
  - destruct GetFreePort as [free|why] eqn:Hfree.
    + cbn [tls setPort name port].
      split; [|split].
      * destruct (tls s); cbn; split;
          [intros [e He]; discriminate|intros (_ & why & Hw); discriminate
          |intros [e He]; discriminate|intros (_ & why & Hw); discriminate].
      * destruct (tls s); cbn; split;
          [discriminate|intros (_ & why & Hw); discriminate
          |discriminate|intros (_ & why & Hw); discriminate].
      * intros _. destruct (tls s); cbn; repeat split.
    + cbn. split; [|split].
      * split; [eauto|]. intros _. eauto.
      * split; [eauto|reflexivity].
      * intros Hno. exfalso. eapply Hno. reflexivity.
  - split; [|split].
    + destruct (tls s); cbn; split;
        [intros [e He]; discriminate|intros [Hp _]; contradiction
        |intros [e He]; discriminate|intros [Hp _]; contradiction].
    + destruct (tls s); cbn; split;
        [discriminate|intros [Hp _]; contradiction
        |discriminate|intros [Hp _]; contradiction].
    + intros _. destruct (tls s); cbn; repeat split.
Qed.

(** A server built with a non-zero port as its last option is served on that
    port without asking for a free one, whatever the options before it. *)
Theorem Serve_uses_the_configured_port
    (c : Context) (nm : string) (opts : list Option) (p : Z) :
  p <> 0 ->
  let s := New c nm (opts ++ [Port p]) in
  ~ In SysGetFreePort (sys (Serve s))
  /\ port (server (Serve s)) = p
  /\ exists srv,
       http.Addr srv = ":" +:+ pretty p
       /\ sys (Serve s)
          = [if tls s
             then SysListenAndServeTLS srv "server.crt" "server.key"
             else SysListenAndServe srv].
Proof.
  intros Hp s.
  assert (port s = p) as Hport.
  { subst s. unfold New. rewrite fold_left_app. reflexivity. }
  unfold Serve, listen. rewrite Hport.
  destruct (Z.eqb_spec p 0) as [Hz|_]; [contradiction|].
  destruct (tls s); cbn [sys server].
  - split; [intros [Hin|[]]; discriminate|]. split; [exact Hport|].
    eexists. split; [|reflexivity]. cbn. rewrite Hport. reflexivity.
  - split; [intros [Hin|[]]; discriminate|]. split; [exact Hport|].
    eexists. split; [|reflexivity]. cbn. rewrite Hport. reflexivity.
Qed.

(** Adding routes changes nothing of how the server starts: the port request,
    the address, the TLS mode and policy are those of the server without the
    routes, and the handler served is the CORS policy around the router that
    holds the registrations made, after those it held before. *)
Theorem Serve_after_AddRoutes
    (s : Server) (routes : list Route) (lg : list LogEntry) :
  let s' := fst (AddRoutes s routes lg) in
  port s' = port s
  /\ tls s' = tls s
  /\ length (sys (Serve s')) = length (sys (Serve s))
  /\ (In SysGetFreePort (sys (Serve s')) <-> In SysGetFreePort (sys (Serve s)))
  /\ http.Addr (httpServer (server (Serve s')))
     = http.Addr (httpServer (server (Serve s)))
  /\ http.TLSConfig (httpServer (server (Serve s'))) = tlsconfig s
  /\ fst (http.Handler (httpServer (server (Serve s')))) = cors s
  /\ exists regs,
       Forall2 (registers W) routes regs
       /\ mux.registered (snd (http.Handler (httpServer (server (Serve s')))))
          = (mux.registered (mux s) ++ regs)%list.
Proof.
  intros s'.
  destruct (AddRoutes_run routes s lg) as (regs & Hregs & Hrun).
  subst s'. rewrite Hrun. cbn [fst].
  set (rt := mux.mkRouter _ _ _).
  unfold Serve, listen. cbn [port tls setMux setPort name].
  destruct (Z.eqb_spec (port s) 0) as [Hz|Hnz];
    [destruct GetFreePort as [free|why]|];
    destruct (tls s); cbn;
    (split; [reflexivity|]); (split; [reflexivity|]);
    (split; [reflexivity|]); (split; [intuition discriminate|]);
    (split; [reflexivity|]); (split; [reflexivity|]);
    (split; [reflexivity|]); exists regs; (split; [exact Hregs|reflexivity]).
Qed.

End ServerProperties.

(** * The further properties at work in the concrete worlds *)

(** A nil [*errors.Error] returned as the error, and an error with code 42:
    the adapter panics with only the content type set.  The same error with
    code 42 after the handler has written to the writer: the adapter
    returns. *)
Lemma responseHandler_returns_iff_witness :
  let st1 := snd (Cases.BadCode Demo.req (withContentType Demo.st0)) in
  Cases.NilError Demo.req (withContentType Demo.st0)
  = (Done (INil, Some (ErrPtr 1%positive)), withContentType Demo.st0)
  /\ heap (withContentType Demo.st0) !! 1%positive = None
  /\ responseHandler (W := Demo.good) Cases.NilError Demo.req Demo.st0
     = (Panicked, withContentType Demo.st0)
  /\ calls (withContentType Demo.st0)
     = [SetHeader "Content-Type" "application/json"]
  /\ Cases.BadCode Demo.req (withContentType Demo.st0)
     = (Done (INil, Some (ErrPtr 1%positive)), st1)
  /\ wroteHeader (calls st1) = false
  /\ responseHandler (W := Demo.good) Cases.BadCode Demo.req Demo.st0
     = (Panicked, st1)
  /\ exists st2,
       responseHandler (W := Demo.good) Cases.WritesThenBadCode Demo.req Demo.st0
       = (Done tt, st2).
Proof.
  intros st1.
  pose proof (responseHandler_returns_iff (W := Demo.good)
                Cases.NilError Demo.req Demo.st0) as (_ & Hnil & _).
  pose proof (responseHandler_returns_iff (W := Demo.good)
                Cases.BadCode Demo.req Demo.st0) as (_ & _ & Hbad).
  pose proof (responseHandler_returns_iff (W := Demo.good)
                Cases.WritesThenBadCode Demo.req Demo.st0) as (Hiff & _ & _).
  split; [reflexivity|]. split; [reflexivity|].
  split; [apply (Hnil INil 1%positive); reflexivity|].
  split; [reflexivity|].
  split; [vm_compute; reflexivity|].
  split; [vm_compute; reflexivity|].
  split.
  { apply (Hbad INil 1%positive
             (errors.mkError 42 "answer" errors.Other None []));
      [vm_compute; reflexivity|vm_compute; reflexivity|discriminate
      |cbn; lia|vm_compute; reflexivity]. }
  apply Hiff.
  exists (INil, Some (ErrPtr 1%positive)),
         (snd (Cases.WritesThenBadCode Demo.req (withContentType Demo.st0))).
  split; [vm_compute; reflexivity|].
  intros l Hl. inversion Hl; subst l.
  exists (errors.mkError 42 "answer" errors.Other None []).
  split; [vm_compute; reflexivity|]. right. right. vm_compute. reflexivity.
Defined.

Lemma responseHandler_drops_data_on_error_witness :
  let st1 := snd (Demo.SaveUser Demo.req (withContentType Demo.st0)) in
  let err := ErrPtr 1%positive in
  Demo.SaveUser Demo.req (withContentType Demo.st0)
  = (Done (INil, Some err), st1)
  /\ Cases.SaveUserWithData Demo.req (withContentType Demo.st0)
     = (Done (IValue (JNum 7), Some err), st1)
  /\ responseHandler (W := Demo.good) Demo.SaveUser Demo.req Demo.st0
     = responseHandler (W := Demo.good) Cases.SaveUserWithData Demo.req Demo.st0.
Proof.
  intros st1 err.
  assert (Demo.SaveUser Demo.req (withContentType Demo.st0)
          = (Done (INil, Some err), st1)) as H1 by (vm_compute; reflexivity).
  assert (Cases.SaveUserWithData Demo.req (withContentType Demo.st0)
          = (Done (IValue (JNum 7), Some err), st1)) as H2
    by (vm_compute; reflexivity).
  split; [exact H1|]. split; [exact H2|].
  exact (responseHandler_drops_data_on_error (W := Demo.good)
           _ _ _ _ _ _ _ _ H1 H2).
Defined.

Lemma responseHandler_error_as_result_witness :
  let st1 := snd (Cases.ErrorAsResult Demo.req (withContentType Demo.st0)) in
  let e := errors.mkError 0 "lookup" errors.IO None [] in
  Cases.ErrorAsResult Demo.req (withContentType Demo.st0)
  = (Done (IErrorPtr 1%positive, None), st1)
  /\ heap st1 !! 1%positive = Some e
  /\ exists st2 tail,
       responseHandler (W := Demo.good) Cases.ErrorAsResult Demo.req Demo.st0
       = (Done tt, st2)
       /\ heap st2 !! 1%positive = Some e
       /\ calls st2
          = (calls st1
               ++ WriteHeader 200
               :: WriteBody (render (W := Demo.good)
                               (marshalError (W := Demo.good) (heap st1) e)
                             +:+ newline)
               :: tail)%list.
Proof.
  intros st1 e.
  assert (Cases.ErrorAsResult Demo.req (withContentType Demo.st0)
          = (Done (IErrorPtr 1%positive, None), st1)) as Hfn
    by (vm_compute; reflexivity).
  assert (heap st1 !! 1%positive = Some e) as Hl by (vm_compute; reflexivity).
  split; [exact Hfn|]. split; [exact Hl|].
  destruct (responseHandler_error_as_result (W := Demo.good)
              Cases.ErrorAsResult Demo.req Demo.st0 st1 1%positive e Hfn Hl)
    as (st2 & tail & Hrun & Hl2 & _ & Hc & _).
  exists st2, tail. auto.
Defined.

Lemma responseHandler_keeps_other_objects_witness :
  let st1 := snd (Cases.TwoErrors Demo.req (withContentType Demo.st0)) in
  let st2 := snd (responseHandler (W := Demo.good) Cases.TwoErrors Demo.req Demo.st0) in
  let first := errors.mkError 404 "first" errors.Other None [] in
  Cases.TwoErrors Demo.req (withContentType Demo.st0)
  = (Done (INil, Some (ErrPtr 2%positive)), st1)
  /\ responseHandler (W := Demo.good) Cases.TwoErrors Demo.req Demo.st0
     = (Done tt, st2)
  /\ heap st1 !! 1%positive = Some first
  /\ Some (ErrPtr 2%positive) <> Some (ErrPtr 1%positive)
  /\ heap st2 !! 1%positive = Some first.
Proof.
  intros st1 st2 first.
  assert (Cases.TwoErrors Demo.req (withContentType Demo.st0)
          = (Done (INil, Some (ErrPtr 2%positive)), st1)) as Hfn
    by (vm_compute; reflexivity).
  assert (responseHandler (W := Demo.good) Cases.TwoErrors Demo.req Demo.st0
          = (Done tt, st2)) as Hrun by (vm_compute; reflexivity).
  assert (heap st1 !! 1%positive = Some first) as Hx
    by (vm_compute; reflexivity).
  assert (Some (ErrPtr 2%positive) <> Some (ErrPtr 1%positive)) as Hne
    by discriminate.
  split; [exact Hfn|]. split; [exact Hrun|]. split; [exact Hx|].
  split; [exact Hne|].
  exact (responseHandler_keeps_other_objects (W := Demo.good)
           _ _ _ _ _ _ _ _ Hfn Hrun Hx Hne).
Defined.

Lemma writeContent_error_object_witness :
  let data := IUnsupported "json: unsupported type: chan int" in
  let st2 := snd (writeContent (W := Demo.good) Demo.req data Demo.st0) in
  writeContent (W := Demo.good) Demo.req data Demo.st0
  = (Done (Some (ErrPtr 1%positive)), st2)
  /\ exists l inner,
       ErrPtr 1%positive = ErrPtr l
       /\ heap Demo.st0 !! l = None
       /\ heap st2 = <[l := inner]> (heap Demo.st0)
       /\ errors.Code inner = 500.
Proof.
  intros data st2.
  assert (writeContent (W := Demo.good) Demo.req data Demo.st0
          = (Done (Some (ErrPtr 1%positive)), st2)) as Hrun
    by (vm_compute; reflexivity).
  split; [exact Hrun|].
  destruct (writeContent_error_object (W := Demo.good) _ _ _ _ _ Hrun)
    as (l & inner & He & Hn & Hh & Hc & _).
  exists l, inner. auto.
Defined.

Lemma responseHandler_log_entry_witness :
  let st2 := snd (responseHandler (W := Demo.good) Demo.Channel Demo.req Demo.st0) in
  responseHandler (W := Demo.good) Demo.Channel Demo.req Demo.st0 = (Done tt, st2)
  /\ logs st2
     = [LogError (errors.mkError 422 EmptyString errors.Invalid
                    (Some (ErrPtr 1%positive)) [])]
  /\ exists res st1,
       Demo.Channel Demo.req (withContentType Demo.st0) = (Done res, st1)
       /\ ((logs st2 = logs st1
            /\ exists buf, last (calls st2) = Some (WriteBody buf))
           \/ (exists l inner,
                 logs st2
                 = (logs st1
                      ++ [LogError (errors.E 422 errors.Invalid (ErrPtr l)
                                      (stackAt (World := Demo.good) 249))])%list
                 /\ heap st2 !! l = Some inner
                 /\ errors.Code inner = 500
                 /\ (errors.EKind inner = errors.Encoding
                     \/ errors.EKind inner = errors.IO)
                 /\ last (calls st2) = Some (WriteHeader 500))).
Proof.
  intros st2.
  assert (responseHandler (W := Demo.good) Demo.Channel Demo.req Demo.st0
          = (Done tt, st2)) as Hrun by (vm_compute; reflexivity).
  split; [exact Hrun|]. split; [vm_compute; reflexivity|].
  exact (responseHandler_log_entry (W := Demo.good) _ _ _ _ Hrun).
Defined.

Lemma responseHandler_status_never_zero_witness :
  let st2 := snd (responseHandler (W := Demo.good) Demo.NoCode Demo.req Demo.st0) in
  responseHandler (W := Demo.good) Demo.NoCode Demo.req Demo.st0 = (Done tt, st2)
  /\ exists res st1 status rest,
       Demo.NoCode Demo.req (withContentType Demo.st0) = (Done res, st1)
       /\ calls st2 = (calls st1 ++ WriteHeader status :: rest)%list
       /\ status <> 0.
Proof.
  intros st2.
  assert (responseHandler (W := Demo.good) Demo.NoCode Demo.req Demo.st0
          = (Done tt, st2)) as Hrun by (vm_compute; reflexivity).
  split; [exact Hrun|].
  destruct (responseHandler_status_never_zero (W := Demo.good) _ _ _ _ Hrun)
    as (res & st1 & status & rest & Hfn & Hc & Hnz & _).
  exists res, st1, status, rest. auto.
Defined.

Lemma AddRoutes_silent_when_router_accepts_witness :
  let routes := [Get "/users" (Some Demo.Users); Post "user" (Some Demo.SaveUser)] in
  (forall before route after,
      routes = (before ++ route :: after)%list ->
      muxError (World := Demo.good)
        (mux (fst (AddRoutes (W := Demo.good) Demo.api before [LogLine "boot"])))
        (Method route) (normalizePath (Path route)) = None)
  /\ snd (AddRoutes (W := Demo.good) Demo.api routes [LogLine "boot"])
     = [LogLine "boot"]
  /\ muxError (World := Demo.good) (mux Demo.api) "DELETE" "/user/{id"
     = Some "mux: unbalanced braces".
Proof.
  intros routes.
  pose proof (AddRoutes_silent_when_router_accepts (W := Demo.good)
                Demo.api routes [LogLine "boot"]) as [Hiff _].
  assert (snd (AddRoutes (W := Demo.good) Demo.api routes [LogLine "boot"])
          = [LogLine "boot"]) as Hlog by (vm_compute; reflexivity).
  split; [exact (proj1 Hiff Hlog)|]. split; [exact Hlog|reflexivity].
Defined.

Lemma builtin_options_commute_witness :
  sameKind (OptPort 10000) OptTLS = false
  /\ New Background "api" ([] ++ optionOf (OptPort 10000) :: optionOf OptTLS :: [])
     = New Background "api" ([] ++ optionOf OptTLS :: optionOf (OptPort 10000) :: []).
Proof.
  split; [reflexivity|].
  exact (builtin_options_commute Background "api" [] []
           (OptPort 10000) OptTLS eq_refl).
Defined.

Lemma Serve_uses_the_configured_port_witness :
  10000 <> 0
  /\ ~ In SysGetFreePort
       (sys (Serve (W := Demo.noPort) (New Background "api" ([TLS] ++ [Port 10000]))))
  /\ port (server (Serve (W := Demo.noPort)
                     (New Background "api" ([TLS] ++ [Port 10000])))) = 10000.
Proof.
  assert (10000 <> 0) as Hp by discriminate.
  split; [exact Hp|].
  destruct (Serve_uses_the_configured_port (W := Demo.noPort)
              Background "api" [TLS] 10000 Hp) as (Hno & Hport & _).
  split; [exact Hno|exact Hport].
Defined.

(** The README's main function: TLS on port 10000, three routes, served. *)
Example README_main :
  let s := fst (AddRoutes (W := Demo.good)
                  (New Background "api" [TLS; Port 10000])
                  [Get "/users" (Some Demo.Users);
                   Post "/user" (Some Demo.SaveUser);
                   Delete "/user/{userid}" (Some Demo.DeleteUser)] []) in
  map (fun reg => (mux.regMethod reg, mux.regPath reg, mux.regErr reg))
    (mux.registered (mux s))
  = [("GET", "/users", None); ("POST", "/user", None);
     ("DELETE", "/user/{userid}", None)]
  /\ sys (Serve (W := Demo.good) s)
     = [SysListenAndServeTLS (httpServer s) "server.crt" "server.key"]
  /\ http.Addr (httpServer s) = ":10000"
  /\ mux.pathPrefix (mux s) = "/api".
Proof. vm_compute. repeat split. Qed.
